(** * Finance-web: scoring and allocation engine

    A shallow embedding of [services/bank_analysis.py] (class
    [BankHealthAnalyzer]) and [services/budget_planner.py] (class
    [AIBudgetPlanner]), followed by the properties of the engine.

    Numbers.  Python and numpy floating-point values are modelled by exact
    rationals ([Q]); values computed from market data live in [pyfloat],
    which adds the IEEE special values [+inf], [-inf] and [NaN] that numpy
    arithmetic produces instead of raising.  Rounding error of individual
    floating-point operations is not modelled.  Python exceptions are
    modelled by the [exc] monad. *)

From Stdlib Require Import QArith Qround Qabs Qminmax ZArith Lia Lqa.
From stdpp Require Import gmap strings pretty.

Open Scope Q_scope.

(** ** Python exceptions *)

Inductive exn :=
| IndexError
| ValueError
| OverflowError
| ZeroDivisionError
| KeyError (key : string)
| SupplierFailure.

Inductive exc (A : Type) :=
| Val (a : A)
| Raise (e : exn).
Arguments Val {A} a.
Arguments Raise {A} e.

#[global] Instance exc_ret : MRet exc := fun A a => Val a.
#[global] Instance exc_bind : MBind exc := fun A B f m =>
  match m with
  | Val a => f a
  | Raise e => Raise e
  end.

(** ** Comparisons on rationals as booleans *)

Definition Qlt_bool (a b : Q) : bool := negb (Qle_bool b a).

(** ** Floating-point values with IEEE special values *)

Inductive pyfloat :=
| Fin (q : Q)
| PInf
| NInf
| NaN.

Definition fneg (a : pyfloat) : pyfloat :=
  match a with
  | Fin q => Fin (- q)
  | PInf => NInf
  | NInf => PInf
  | NaN => NaN
  end.

Definition fabs (a : pyfloat) : pyfloat :=
  match a with
  | Fin q => Fin (Qabs q)
  | PInf | NInf => PInf
  | NaN => NaN
  end.

Definition fadd (a b : pyfloat) : pyfloat :=
  match a, b with
  | NaN, _ | _, NaN => NaN
  | Fin x, Fin y => Fin (x + y)
  | PInf, NInf | NInf, PInf => NaN
  | PInf, _ | _, PInf => PInf
  | NInf, _ | _, NInf => NInf
  end.

Definition fsub (a b : pyfloat) : pyfloat := fadd a (fneg b).

(** The infinity whose sign is that of [q]; [NaN] when [q] is zero. *)
Definition inf_of_sign (q : Q) : pyfloat :=
  match Qcompare q 0 with
  | Gt => PInf
  | Lt => NInf
  | Eq => NaN
  end.

Definition fmul (a b : pyfloat) : pyfloat :=
  match a, b with
  | NaN, _ | _, NaN => NaN
  | Fin x, Fin y => Fin (x * y)
  | PInf, Fin y | Fin y, PInf => inf_of_sign y
  | NInf, Fin y | Fin y, NInf => inf_of_sign (- y)
  | PInf, PInf | NInf, NInf => PInf
  | PInf, NInf | NInf, PInf => NaN
  end.

(** numpy division: a zero divisor gives an infinity or [NaN], never an
    exception.  Zero is taken as positive zero. *)
Definition fdiv (a b : pyfloat) : pyfloat :=
  match a, b with
  | NaN, _ | _, NaN => NaN
  | Fin x, Fin y => if Qeq_bool y 0 then inf_of_sign x else Fin (x / y)
  | Fin _, (PInf | NInf) => Fin 0
  | PInf, Fin y => if Qle_bool 0 y then PInf else NInf
  | NInf, Fin y => if Qle_bool 0 y then NInf else PInf
  | (PInf | NInf), (PInf | NInf) => NaN
  end.

Definition flt (a b : pyfloat) : bool :=
  match a, b with
  | NaN, _ | _, NaN => false
  | Fin x, Fin y => Qlt_bool x y
  | _, NInf => false
  | NInf, _ => true
  | PInf, _ => false
  | _, PInf => true
  end.

Definition fle (a b : pyfloat) : bool :=
  match a, b with
  | NaN, _ | _, NaN => false
  | Fin x, Fin y => Qle_bool x y
  | NInf, _ => true
  | _, PInf => true
  | _, NInf => false
  | PInf, _ => false
  end.

Definition fgt (a b : pyfloat) : bool := flt b a.
Definition fge (a b : pyfloat) : bool := fle b a.

Definition is_nan (a : pyfloat) : bool :=
  match a with
  | NaN => true
  | _ => false
  end.

(** Python's [min(a, b)]: the first argument unless the second is strictly
    smaller. *)
Definition py_min (a b : pyfloat) : pyfloat := if flt b a then b else a.

(** ** Rounding to two decimals *)

(** Nearest integer, ties to the even neighbour. *)
Definition round_half_even (q : Q) : Z :=
  let f := Qfloor q in
  match Qcompare (q - inject_Z f) (1 # 2) with
  | Lt => f
  | Gt => (f + 1)%Z
  | Eq => if Z.even f then f else (f + 1)%Z
  end.

(** [round(q, 2)] on a finite number. *)
Definition round2 (q : Q) : Q := inject_Z (round_half_even (q * 100)) / 100.

(** [round(x, 2)] on a numpy float: the special values pass through. *)
Definition fround2 (a : pyfloat) : pyfloat :=
  match a with
  | Fin q => Fin (round2 q)
  | other => other
  end.

(** [int(x)]: truncation toward zero; [NaN] and the infinities raise. *)
Definition py_int (a : pyfloat) : exc Z :=
  match a with
  | Fin q => Val (if Qle_bool 0 q then Qfloor q else Qceiling q)
  | PInf | NInf => Raise OverflowError
  | NaN => Raise ValueError
  end.

(** Python's [/] on built-in numbers raises on a zero divisor. *)
Definition py_div (a b : Q) : exc Q :=
  if Qeq_bool b 0 then Raise ZeroDivisionError else Val (a / b).

(** A concrete square root on rationals, truncated to twelve decimals; it
    instantiates the square-root parameter when the model is run on sample
    data. *)
Definition sqrt_approx (q : Q) : Q :=
  Z.sqrt ((Qnum q * 10 ^ 24) / Z.pos (Qden q)) # (10 ^ 12).

(** * [services/bank_analysis.py]: class [BankHealthAnalyzer] *)

Module BankHealthAnalyzer.

(** The class-level roster; a Python dict literal keeps insertion order, so
    it is an association list. *)
Definition INDIAN_BANKS : list (string * string) :=
  [ ("HDFC Bank", "HDFCBANK.NS");
    ("ICICI Bank", "ICICIBANK.NS");
    ("State Bank of India", "SBIN.NS");
    ("Kotak Mahindra Bank", "KOTAKBANK.NS");
    ("Axis Bank", "AXISBANK.NS");
    ("Bank of Baroda", "BANKBARODA.NS");
    ("Punjab National Bank", "PNB.NS");
    ("Canara Bank", "CANBK.NS");
    ("Union Bank", "UNIONBANK.NS");
    ("IDBI Bank", "IDBI.NS") ]%string.

(** [d.get(key)] on an ordered dict. *)
Fixpoint dict_get {V : Type} (d : list (string * V)) (key : string) : option V :=
  match d with
  | [] => None
  | (k, v) :: rest => if String.eqb k key then Some v else dict_get rest key
  end.

(** One row of the supplier's history frame. *)
Record bar := {
  Open : Q;
  High : Q;
  Low : Q;
  Close : Q;
  Volume : Z
}.

(** The entries of [ticker.info] that the analyzer reads; [None] is an
    absent key. *)
Record ticker_info := {
  marketCap : option Z;
  trailingPE : option Q;
  priceToBook : option Q;
  dividendYield : option Q
}.

(** A dict value that is either a string or a number, as tested by
    [isinstance(v, (int, float))]. *)
Inductive pyval :=
| PStr (s : string)
| PNum (x : pyfloat).

(** The data dict returned by [get_bank_stock_data]. *)
Record bank_data := {
  bank_name : string;
  symbol : string;
  current_price : pyfloat;
  price_change : pyfloat;
  price_change_pct : pyfloat;
  volatility : pyfloat;
  ma_20 : pyfloat;
  ma_50 : pyfloat;
  market_cap : pyval;
  volume : Z;
  avg_volume : Z;
  high_52w : pyfloat;
  low_52w : pyfloat;
  pe_ratio : pyval;
  pb_ratio : pyval;
  dividend_yield : pyfloat
}.

(** A returned dict either has the key ["error"] or is a data dict. *)
Inductive bank_result :=
| BankError (msg : string)
| BankData (d : bank_data).

(** ** Series operations of pandas used by the analyzer *)

(** [s.iloc[-k]] for [k >= 1]; out of range raises [IndexError]. *)
Definition iloc_neg {A : Type} (s : list A) (k : nat) : exc A :=
  match nth_error (rev s) (k - 1) with
  | Some x => Val x
  | None => Raise IndexError
  end.

(** [s.pct_change()]: the first entry is undefined, entry [i] is
    [s[i] / s[i-1] - 1]. *)
Fixpoint pct_change_from (prev : Q) (s : list Q) : list pyfloat :=
  match s with
  | [] => []
  | x :: rest => fsub (fdiv (Fin x) (Fin prev)) (Fin 1) :: pct_change_from x rest
  end.

Definition pct_change (s : list Q) : list pyfloat :=
  match s with
  | [] => []
  | x :: rest => NaN :: pct_change_from x rest
  end.

(** [s.dropna()] *)
Definition dropna (s : list pyfloat) : list pyfloat :=
  filter (fun x => is_nan x = false) s.

Definition fsum (s : list pyfloat) : pyfloat := fold_left fadd s (Fin 0).

Definition Qsum (s : list Q) : Q := fold_left Qplus s 0.

(** The last [n] entries. *)
Definition tail_window {A : Type} (n : nat) (s : list A) : list A :=
  drop (length s - n) s.

(** [s.rolling(window=n).mean().iloc[-1]] on a non-empty series: the window
    must be full ([min_periods] defaults to the window), otherwise [NaN]. *)
Definition rolling_mean_last (n : nat) (s : list Q) : pyfloat :=
  if (length s <? n)%nat then NaN
  else Fin (Qsum (tail_window n s) / inject_Z (Z.of_nat n)).

(** [s.max()] and [s.min()]; [NaN] on an empty series. *)
Definition series_max (s : list Q) : pyfloat :=
  match s with
  | [] => NaN
  | x :: rest => Fin (fold_left Qmax rest x)
  end.

Definition series_min (s : list Q) : pyfloat :=
  match s with
  | [] => NaN
  | x :: rest => Fin (fold_left Qmin rest x)
  end.

Section Analyzer.

(** The square root of floating-point arithmetic on a finite non-negative
    number. *)
Variable sqrtQ : Q -> Q.

(** [yf.Ticker(symbol)]: the history frame of the last year and the info
    dict; [None] when the supplier raises. *)
Variable supplier : string -> option (list bar * ticker_info).

Definition np_sqrt (a : pyfloat) : pyfloat :=
  match a with
  | Fin q => if Qle_bool 0 q then Fin (sqrtQ q) else NaN
  | PInf => PInf
  | NInf | NaN => NaN
  end.

(** [s.std()]: the sample standard deviation (divisor [n - 1]); [NaN] when
    fewer than two observations remain. *)
Definition series_std (s : list pyfloat) : pyfloat :=
  let count := length s in
  if (count <=? 1)%nat then NaN
  else
    let avg := fdiv (fsum s) (Fin (inject_Z (Z.of_nat count))) in
    let sqr := map (fun x => let d := fsub avg x in fmul d d) s in
    np_sqrt (fdiv (fsum sqr) (Fin (inject_Z (Z.of_nat (count - 1))))).

(** Lines 76-78: annualized volatility of the close series. *)
Definition annualized_volatility (closes : list Q) : pyfloat :=
  let returns := dropna (pct_change closes) in
  fmul (fmul (series_std returns) (np_sqrt (Fin 252))) (Fin 100).

(** [float(info.get(k, 0)) if info.get(k) else 'N/A'] *)
Definition ratio_or_na (v : option Q) : pyval :=
  match v with
  | Some q => if Qeq_bool q 0 then PStr "N/A" else PNum (Fin q)
  | None => PStr "N/A"
  end.

(** The body of the [try] block once the history is known not to be
    empty. *)
Definition compute_metrics (name sym : string) (hist_data : list bar)
    (info : ticker_info) : exc bank_data :=
  let closes := map Close hist_data in
  last_close ← iloc_neg closes 1;
  prev_close ← iloc_neg closes 2;
  let current_price := Fin last_close in
  let price_change := fsub (Fin last_close) (Fin prev_close) in
  let price_change_pct := fmul (fdiv price_change (Fin prev_close)) (Fin 100) in
  let volatility := annualized_volatility closes in
  let ma_20 := rolling_mean_last 20 closes in
  let ma_50 := rolling_mean_last 50 closes in
  last_volume ← iloc_neg (map Volume hist_data) 1;
  avg_volume ← py_int (rolling_mean_last 20 (map (fun b => inject_Z (Volume b)) hist_data));
  mret {|
    bank_name := name;
    symbol := sym;
    current_price := fround2 current_price;
    price_change := fround2 price_change;
    price_change_pct := fround2 price_change_pct;
    volatility := fround2 volatility;
    ma_20 := fround2 ma_20;
    ma_50 := fround2 ma_50;
    market_cap := PStr (match marketCap info with
                        | Some z => pretty z
                        | None => "N/A"
                        end);
    volume := last_volume;
    avg_volume := avg_volume;
    high_52w := series_max (map High hist_data);
    low_52w := series_min (map Low hist_data);
    pe_ratio := ratio_or_na (trailingPE info);
    pb_ratio := ratio_or_na (priceToBook info);
    dividend_yield := match dividendYield info with
                      | Some q => if Qeq_bool q 0 then Fin 0 else Fin (q * 100)
                      | None => Fin 0
                      end
  |}.

Definition failed_to_fetch (name : string) : bank_result :=
  BankError ("Failed to fetch data for " +:+ name).

Definition get_bank_stock_data (name : string) : bank_result :=
  match dict_get INDIAN_BANKS name with
  | None => BankError ("Bank " +:+ name +:+ " not found in database")
  | Some sym =>
      if String.eqb sym "" then BankError ("Bank " +:+ name +:+ " not found in database")
      else
        match supplier sym with
        | None => failed_to_fetch name
        | Some (hist_data, info) =>
            match hist_data with
            | [] => BankError ("No data available for " +:+ name)
            | _ =>
                match compute_metrics name sym hist_data info with
                | Val d => BankData d
                | Raise _ => failed_to_fetch name
                end
            end
        end
  end.

End Analyzer.

(** ** Health scoring *)

(** The qualitative tag that starts each analysis line. *)
Inductive marker := Positive | Caution | Negative.

(** One analysis line: its tag, its fixed text and the value interpolated
    into it, if any. *)
Record note := {
  note_marker : marker;
  note_text : string;
  note_value : option pyfloat
}.

(** The local variables [score] and [analysis]. *)
Record scoring := {
  acc_score : pyfloat;
  acc_analysis : list note
}.

(** [score += pts; analysis.append(n)] *)
Definition award (pts : pyfloat) (n : note) (s : scoring) : scoring :=
  {| acc_score := fadd (acc_score s) pts; acc_analysis := acc_analysis s ++ [n] |}.

(** [analysis.append(n)] *)
Definition remark (n : note) (s : scoring) : scoring :=
  {| acc_score := acc_score s; acc_analysis := acc_analysis s ++ [n] |}.

(** Price Performance (20 points) *)
Definition price_performance (d : bank_data) (s : scoring) : scoring :=
  let pct := price_change_pct d in
  if fgt pct (Fin 0) then
    award (py_min (Fin 20) (fmul (fabs pct) (Fin 2)))
      {| note_marker := Positive; note_text := "Positive price performance";
         note_value := Some pct |} s
  else
    remark {| note_marker := Caution; note_text := "Negative price performance";
              note_value := Some pct |} s.

(** Volatility Assessment (15 points) *)
Definition volatility_assessment (d : bank_data) (s : scoring) : scoring :=
  let v := volatility d in
  if flt v (Fin 20) then
    award (Fin 15) {| note_marker := Positive; note_text := "Low volatility";
                      note_value := Some v |} s
  else if flt v (Fin 30) then
    award (Fin 10) {| note_marker := Caution; note_text := "Moderate volatility";
                      note_value := Some v |} s
  else
    remark {| note_marker := Negative; note_text := "High volatility";
              note_value := Some v |} s.

(** Moving Average Analysis (15 points) *)
Definition moving_average_analysis (d : bank_data) (s : scoring) : scoring :=
  if fgt (current_price d) (ma_20 d) && fgt (ma_20 d) (ma_50 d) then
    award (Fin 15)
      {| note_marker := Positive;
         note_text := "Strong uptrend: Price above both moving averages";
         note_value := None |} s
  else if fgt (current_price d) (ma_20 d) then
    award (Fin 10)
      {| note_marker := Caution; note_text := "Moderate trend: Price above 20-day MA";
         note_value := None |} s
  else
    remark {| note_marker := Negative;
              note_text := "Downtrend: Price below moving averages";
              note_value := None |} s.

(** Valuation Metrics (20 points): [pe_score] and its analysis line. *)
Definition pe_valuation (d : bank_data) : Q * list note :=
  match pe_ratio d with
  | PNum pe =>
      if fle (Fin 10) pe && fle pe (Fin 20) then
        (10, [ {| note_marker := Positive; note_text := "Reasonable P/E ratio";
                  note_value := Some pe |} ])
      else if flt pe (Fin 10) then
        (15, [ {| note_marker := Positive; note_text := "Undervalued P/E ratio";
                  note_value := Some pe |} ])
      else
        (0, [ {| note_marker := Caution; note_text := "High P/E ratio";
                 note_value := Some pe |} ])
  | PStr _ => (0, [])
  end.

(** Valuation Metrics: [pb_score] and its analysis line. *)
Definition pb_valuation (d : bank_data) : Q * list note :=
  match pb_ratio d with
  | PNum pb =>
      if fle pb (Fin 2) then
        (10, [ {| note_marker := Positive; note_text := "Good P/B ratio";
                  note_value := Some pb |} ])
      else
        (0, [ {| note_marker := Caution; note_text := "High P/B ratio";
                 note_value := Some pb |} ])
  | PStr _ => (0, [])
  end.

(** [score += pe_score + pb_score] *)
Definition valuation_metrics (d : bank_data) (s : scoring) : scoring :=
  let '(pe_score, pe_notes) := pe_valuation d in
  let '(pb_score, pb_notes) := pb_valuation d in
  {| acc_score := fadd (acc_score s) (Fin (pe_score + pb_score));
     acc_analysis := acc_analysis s ++ pe_notes ++ pb_notes |}.

(** Dividend Analysis (10 points) *)
Definition dividend_analysis (d : bank_data) (s : scoring) : scoring :=
  let y := dividend_yield d in
  if fgt y (Fin 3) then
    award (Fin 10) {| note_marker := Positive; note_text := "High dividend yield";
                      note_value := Some y |} s
  else if fgt y (Fin 1) then
    award (Fin 5) {| note_marker := Caution; note_text := "Moderate dividend yield";
                     note_value := Some y |} s
  else
    remark {| note_marker := Negative; note_text := "Low dividend yield";
              note_value := Some y |} s.

(** Volume Analysis (10 points) *)
Definition volume_analysis (d : bank_data) (s : scoring) : scoring :=
  let current_volume := inject_Z (volume d) in
  let avg_volume := inject_Z (avg_volume d) in
  if Qlt_bool (avg_volume * 1.5) current_volume then
    award (Fin 10)
      {| note_marker := Positive;
         note_text := "High trading volume indicates strong interest";
         note_value := None |} s
  else if Qlt_bool avg_volume current_volume then
    award (Fin 5)
      {| note_marker := Caution; note_text := "Above average trading volume";
         note_value := None |} s
  else
    remark {| note_marker := Negative; note_text := "Below average trading volume";
              note_value := None |} s.

(** [isinstance(v, (int, float)) and v > bound] *)
Definition numeric_above (v : pyval) (bound : Q) : bool :=
  match v with
  | PNum x => fgt x (Fin bound)
  | PStr _ => false
  end.

(** Market Position (10 points) *)
Definition market_position (d : bank_data) (s : scoring) : scoring :=
  if numeric_above (market_cap d) 100000000000 then
    award (Fin 10)
      {| note_marker := Positive;
         note_text := "Large-cap bank with strong market position";
         note_value := None |} s
  else if numeric_above (market_cap d) 10000000000 then
    award (Fin 5) {| note_marker := Caution; note_text := "Mid-cap bank";
                     note_value := None |} s
  else
    remark {| note_marker := Negative; note_text := "Small-cap bank";
              note_value := None |} s.

(** Determine health status: the status and its colour. *)
Definition health_status (score : pyfloat) : string * string :=
  if fge score (Fin 80) then ("Excellent", "green")
  else if fge score (Fin 60) then ("Good", "blue")
  else if fge score (Fin 40) then ("Fair", "orange")
  else ("Poor", "red").

Definition _get_recommendation (score : pyfloat) (d : bank_data) : string :=
  if fge score (Fin 80) then "Strong Buy - Excellent financial health and performance"
  else if fge score (Fin 60) then "Buy - Good fundamentals with potential for growth"
  else if fge score (Fin 40) then "Hold - Monitor closely, consider reducing exposure"
  else "Sell - Poor performance, consider alternatives".

Record health_result := {
  health_score : pyfloat;
  max_score : Z;
  status : string;
  status_color : string;
  analysis : list note;
  recommendation : string
}.

Inductive health_outcome :=
| HealthError (msg : string)
| Health (h : health_result).

(** The scoring of a data dict, lines 120-226. *)
Definition score_bank (d : bank_data) : health_result :=
  let s0 := {| acc_score := Fin 0; acc_analysis := [] |} in
  let s1 := price_performance d s0 in
  let s2 := volatility_assessment d s1 in
  let s3 := moving_average_analysis d s2 in
  let s4 := valuation_metrics d s3 in
  let s5 := dividend_analysis d s4 in
  let s6 := volume_analysis d s5 in
  let s7 := market_position d s6 in
  let score := acc_score s7 in
  {| health_score := score;
     max_score := 100;
     status := fst (health_status score);
     status_color := snd (health_status score);
     analysis := acc_analysis s7;
     recommendation := _get_recommendation score d |}.

Definition calculate_bank_health_score (r : bank_result) : health_outcome :=
  match r with
  | BankError msg => HealthError msg
  | BankData d => Health (score_bank d)
  end.

(** The largest number of points each block of the rubric can add, in the
    order of the blocks: price, volatility, moving averages, P/E, P/B,
    dividend, volume, market position. *)
Definition rubric_max_points : list Q := [20; 15; 15; 15; 10; 10; 10; 10].

(** ** Sector aggregation *)

Record sector_entry := {
  stock_data : bank_data;
  entry_health : health_result
}.

(** [d[key] = v] on an ordered dict. *)
Fixpoint dict_set {V : Type} (d : list (string * V)) (key : string) (v : V)
    : list (string * V) :=
  match d with
  | [] => [(key, v)]
  | (k, w) :: rest =>
      if String.eqb k key then (k, v) :: rest else (k, w) :: dict_set rest key v
  end.

(** The loop variables of [get_banking_sector_overview]. *)
Record sector_acc := {
  sector_data : list (string * sector_entry);
  total_score : pyfloat;
  bank_count : Z
}.

Record sector_overview_t := {
  sector_overview : list (string * sector_entry);
  average_sector_score : pyfloat;
  sector_sentiment : string;
  sentiment_color : string;
  total_banks_analyzed : Z
}.

Inductive sector_result :=
| SectorError (msg : string)
| Sector (o : sector_overview_t).

(** Sector sentiment analysis: the sentiment and its colour. *)
Definition sentiment_of (avg_sector_score : pyfloat) : string * string :=
  if fge avg_sector_score (Fin 70) then ("Bullish", "green")
  else if fge avg_sector_score (Fin 50) then ("Neutral", "blue")
  else ("Bearish", "red").

(** One entry of the [warnings] list; the numbers interpolated into the
    description are kept next to its fixed text. *)
Record warning := {
  level : string;
  indicator : string;
  description : string;
  description_values : list Q;
  warning_recommendation : string
}.

Record warning_report := {
  warnings : list warning;
  sector_health_score : pyfloat
}.

Inductive warning_result :=
| WarningError (msg : string)
| Warnings (w : warning_report).

Definition low_sector_health (avg_score : pyfloat) : warning :=
  {| level := "High";
     indicator := "Low Sector Health Score";
     description := "Sector average health score is {avg_score}, indicating potential stress";
     description_values := match avg_score with Fin q => [q] | _ => [] end;
     warning_recommendation := "Monitor closely, consider defensive positions" |}.

Definition multiple_banks_under_stress (poor_banks total : nat) : warning :=
  {| level := "Medium";
     indicator := "Multiple Banks Under Stress";
     description := "{poor_banks} out of {total} banks show poor health";
     description_values := [inject_Z (Z.of_nat poor_banks); inject_Z (Z.of_nat total)];
     warning_recommendation :=
       "Diversify across sectors, avoid concentrated banking exposure" |}.

(** The number of banks whose health score is below 40. *)
Definition count_poor (overview : list (string * sector_entry)) : nat :=
  length (filter (fun e => flt (health_score (entry_health (snd e))) (Fin 40) = true)
            overview).

Section Sector.

Variable sqrtQ : Q -> Q.
Variable supplier : string -> option (list bar * ticker_info).

(** The body of the loop over the roster. *)
Definition sector_step (acc : sector_acc) (name : string) : sector_acc :=
  match get_bank_stock_data sqrtQ supplier name with
  | BankData d =>
      match calculate_bank_health_score (BankData d) with
      | Health h =>
          {| sector_data :=
               dict_set (sector_data acc) name {| stock_data := d; entry_health := h |};
             total_score := fadd (total_score acc) (health_score h);
             bank_count := (bank_count acc + 1)%Z |}
      | HealthError _ => acc
      end
  | BankError _ => acc
  end.

Definition sector_loop : sector_acc :=
  fold_left sector_step (map fst INDIAN_BANKS)
    {| sector_data := []; total_score := Fin 0; bank_count := 0 |}.

Definition get_banking_sector_overview : sector_result :=
  let acc := sector_loop in
  if (0 <? bank_count acc)%Z then
    let avg_sector_score := fdiv (total_score acc) (Fin (inject_Z (bank_count acc))) in
    Sector {| sector_overview := sector_data acc;
              average_sector_score := fround2 avg_sector_score;
              sector_sentiment := fst (sentiment_of avg_sector_score);
              sentiment_color := snd (sentiment_of avg_sector_score);
              total_banks_analyzed := bank_count acc |}
  else SectorError "Unable to fetch banking sector data".

Definition get_early_warning_indicators : warning_result :=
  match get_banking_sector_overview with
  | SectorError msg => WarningError msg
  | Sector sd =>
      let avg_score := average_sector_score sd in
      let warnings1 :=
        if flt avg_score (Fin 50) then [low_sector_health avg_score] else [] in
      let poor_banks := count_poor (sector_overview sd) in
      let total := length (sector_overview sd) in
      let warnings2 :=
        if Qlt_bool (inject_Z (Z.of_nat total) * 0.3) (inject_Z (Z.of_nat poor_banks))
        then warnings1 ++ [multiple_banks_under_stress poor_banks total]
        else warnings1 in
      Warnings {| warnings := warnings2; sector_health_score := avg_score |}
  end.

End Sector.

End BankHealthAnalyzer.

(** * [services/budget_planner.py]: class [AIBudgetPlanner] *)

Module AIBudgetPlanner.

(** The request dict; [None] is an absent key, read through
    [user_data.get(key, default)]. *)
Record user_data := {
  monthly_income : option Q;
  current_expenses : option (gmap string Q);
  financial_goals : option (list string);
  risk_tolerance : option string;
  age : option Z
}.

(** ** Budget allocation *)

(** One top-level bucket of the allocation. *)
Record bucket := {
  amount : Q;
  percentage : Q;
  breakdown : list (string * Q)
}.

Record budget_allocation := {
  essential_expenses : bucket;
  financial_goals_bucket : bucket;
  discretionary : bucket
}.

(** The amounts before rounding, as the local variables
    [essential_amount], [goals_amount] and [discretionary_amount]. *)
Definition essential_percentage (risk : string) : Q :=
  if String.eqb risk "conservative" then 55 else 50.

Definition goals_percentage (age : Z) : Q :=
  if (age <? 30)%Z then 25 else 20.

Definition essential_amount (income : Q) (risk : string) : Q :=
  (income * essential_percentage risk) / 100.

Definition goals_amount (income : Q) (age : Z) : Q :=
  (income * goals_percentage age) / 100.

Definition discretionary_amount (income : Q) (risk : string) (age : Z) : Q :=
  let total_allocated := 0 + essential_amount income risk + goals_amount income age in
  income - total_allocated.

Definition _calculate_budget_allocation (income : Q) (expenses : gmap string Q)
    (goals : list string) (risk : string) (age : Z) : exc budget_allocation :=
  let essential := essential_amount income risk in
  let goals_amt := goals_amount income age in
  let disc := discretionary_amount income risk age in
  ratio ← py_div disc income;
  let discretionary_percentage := ratio * 100 in
  mret {|
    essential_expenses :=
      {| amount := round2 essential;
         percentage := essential_percentage risk;
         breakdown := [ ("housing", round2 (essential * 0.55));
                        ("utilities", round2 (essential * 0.18));
                        ("groceries", round2 (essential * 0.27)) ] |};
    financial_goals_bucket :=
      {| amount := round2 goals_amt;
         percentage := goals_percentage age;
         breakdown := [ ("emergency_fund", round2 (goals_amt * 0.4));
                        ("savings", round2 (goals_amt * 0.3));
                        ("investments", round2 (goals_amt * 0.3)) ] |};
    discretionary :=
      {| amount := round2 disc;
         percentage := round2 discretionary_percentage;
         breakdown := [ ("entertainment", round2 (disc * 0.33));
                        ("dining_out", round2 (disc * 0.27));
                        ("shopping", round2 (disc * 0.23));
                        ("hobbies", round2 (disc * 0.17)) ] |}
  |}.

(** ** Savings challenges *)

(** [range(a, b)] *)
Definition py_range (a b : Z) : list Z :=
  map (fun i => (a + Z.of_nat i)%Z) (seq 0 (Z.to_nat (b - a))).

(** [sum(xs)] on integers. *)
Definition py_sum (xs : list Z) : Z := fold_left Z.add xs 0%Z.

Record week_entry := {
  week : Z;
  week_amount : Z;
  cumulative : Z
}.

Definition _generate_52_week_breakdown : list week_entry :=
  map (fun week => {| week := week;
                      week_amount := week;
                      cumulative := py_sum (py_range 1 (week + 1)) |})
      (py_range 1 53).

(** A challenge dict; keys that a challenge does not carry are [None]. *)
Record challenge := {
  challenge_id : string;
  challenge_name : string;
  total_savings : option Z;
  potential_savings : option Q;
  duration : string;
  weekly_breakdown : option (list week_entry);
  difficulty : string;
  suitable_for : string
}.

Definition _create_savings_challenges (income : Q) (goals : list string)
    : list challenge :=
  [ {| challenge_id := "52_week";
       challenge_name := "52-Week Savings Challenge";
       total_savings := Some 1378%Z;
       potential_savings := None;
       duration := "52 weeks";
       weekly_breakdown := Some _generate_52_week_breakdown;
       difficulty := "Easy";
       suitable_for := "Beginners" |};
    {| challenge_id := "no_spend";
       challenge_name := "30-Day No-Spend Challenge";
       total_savings := None;
       potential_savings := Some (round2 (income * 0.25));
       duration := "30 days";
       weekly_breakdown := None;
       difficulty := "Hard";
       suitable_for := "Advanced" |};
    {| challenge_id := "round_up";
       challenge_name := "Round-Up Challenge";
       total_savings := None;
       potential_savings := Some (round2 (income * 0.05));
       duration := "Ongoing";
       weekly_breakdown := None;
       difficulty := "Easy";
       suitable_for := "Everyone" |} ].

(** ** Financial health score *)

Inductive marker := Positive | Caution | Negative.

(** One line of [factors]: its tag, its fixed text and the value
    interpolated into it, if any. *)
Record factor := {
  factor_marker : marker;
  factor_text : string;
  factor_value : option Q
}.

(** The local variables [score] and [factors]. *)
Record scoring := {
  acc_score : Z;
  acc_factors : list factor
}.

Definition award (pts : Z) (m : marker) (text : string) (v : option Q)
    (s : scoring) : scoring :=
  {| acc_score := (acc_score s + pts)%Z;
     acc_factors := acc_factors s ++
       [ {| factor_marker := m; factor_text := text; factor_value := v |} ] |}.

(** [factors.append(...)] without a change of [score]. *)
Definition remark (m : marker) (text : string) (v : option Q) (s : scoring) : scoring :=
  {| acc_score := acc_score s;
     acc_factors := acc_factors s ++
       [ {| factor_marker := m; factor_text := text; factor_value := v |} ] |}.

(** [expenses.get(key, 0)] *)
Definition expense (expenses : gmap string Q) (key : string) : Q :=
  default 0 (expenses !! key).

(** Income Factor (20 points) *)
Definition income_factor (income : Q) (s : scoring) : scoring :=
  if Qlt_bool 50000 income then award 20 Positive "High income level" None s
  else if Qlt_bool 30000 income then award 15 Positive "Good income level" None s
  else if Qlt_bool 15000 income then award 10 Caution "Moderate income level" None s
  else remark Negative "Low income level" None s.

(** [(savings / income) * 100 if income > 0 else 0] *)
Definition savings_rate_of (income : Q) (expenses : gmap string Q) : exc Q :=
  let savings := expense expenses "savings" in
  if Qlt_bool 0 income then r ← py_div savings income; mret (r * 100) else mret 0.

(** Savings Rate (25 points) *)
Definition savings_factor (savings_rate : Q) (s : scoring) : scoring :=
  if Qle_bool 20 savings_rate then
    award 25 Positive "Excellent savings rate" (Some savings_rate) s
  else if Qle_bool 15 savings_rate then
    award 20 Positive "Good savings rate" (Some savings_rate) s
  else if Qle_bool 10 savings_rate then
    award 15 Caution "Moderate savings rate" (Some savings_rate) s
  else remark Negative "Low savings rate" (Some savings_rate) s.

(** [(debt_payments / income) * 100 if income > 0 else 0] *)
Definition debt_ratio_of (income : Q) (expenses : gmap string Q) : exc Q :=
  let debt_payments := expense expenses "debt_payments" in
  if Qlt_bool 0 income then r ← py_div debt_payments income; mret (r * 100) else mret 0.

(** Debt Management (20 points) *)
Definition debt_factor (debt_ratio : Q) (s : scoring) : scoring :=
  if Qle_bool debt_ratio 10 then
    award 20 Positive "Excellent debt management" (Some debt_ratio) s
  else if Qle_bool debt_ratio 20 then
    award 15 Positive "Good debt management" (Some debt_ratio) s
  else if Qle_bool debt_ratio 30 then
    award 10 Caution "Moderate debt load" (Some debt_ratio) s
  else remark Negative "High debt load" (Some debt_ratio) s.

(** Financial Goals (20 points) *)
Definition goals_factor (goals : list string) (s : scoring) : scoring :=
  if (3 <=? length goals)%nat then
    award 20 Positive "Multiple financial goals set" None s
  else if (1 <=? length goals)%nat then
    award 15 Positive "Some financial goals set" None s
  else remark Negative "No financial goals identified" None s.

(** [emergency_fund / income if income > 0 else 0] *)
Definition emergency_months_of (income : Q) (expenses : gmap string Q) : exc Q :=
  let emergency_fund := expense expenses "emergency_fund" in
  if Qlt_bool 0 income then py_div emergency_fund income else mret 0.

(** Emergency Fund (15 points) *)
Definition emergency_factor (emergency_months : Q) (s : scoring) : scoring :=
  if Qle_bool 6 emergency_months then
    award 15 Positive "Strong emergency fund" (Some emergency_months) s
  else if Qle_bool 3 emergency_months then
    award 10 Positive "Adequate emergency fund" (Some emergency_months) s
  else remark Negative "Insufficient emergency fund" (Some emergency_months) s.

(** Determine overall status: the status and its colour. *)
Definition overall_status (score : Z) : string * string :=
  if (80 <=? score)%Z then ("Excellent", "green")
  else if (60 <=? score)%Z then ("Good", "blue")
  else if (40 <=? score)%Z then ("Fair", "orange")
  else ("Poor", "red").

Definition _get_health_recommendation (score : Z) : string :=
  if (80 <=? score)%Z then
    "Excellent financial health! Focus on wealth building and advanced strategies."
  else if (60 <=? score)%Z then
    "Good financial health. Continue building emergency fund and increasing savings."
  else if (40 <=? score)%Z then
    "Fair financial health. Prioritize debt reduction and emergency fund building."
  else "Poor financial health. Focus on basic budgeting and debt management first.".

Record financial_health := {
  score : Z;
  max_score : Z;
  status : string;
  status_color : string;
  factors : list factor;
  recommendation : string
}.

Definition _calculate_financial_health_score (ud : user_data) : exc financial_health :=
  let s0 := {| acc_score := 0; acc_factors := [] |} in
  let income := default 0 (monthly_income ud) in
  let expenses := default ∅ (current_expenses ud) in
  let goals := default [] (financial_goals ud) in
  let s1 := income_factor income s0 in
  savings_rate ← savings_rate_of income expenses;
  let s2 := savings_factor savings_rate s1 in
  debt_ratio ← debt_ratio_of income expenses;
  let s3 := debt_factor debt_ratio s2 in
  let s4 := goals_factor goals s3 in
  emergency_months ← emergency_months_of income expenses;
  let s5 := emergency_factor emergency_months s4 in
  let score := acc_score s5 in
  mret {| score := score;
          max_score := 100;
          status := fst (overall_status score);
          status_color := snd (overall_status score);
          factors := acc_factors s5;
          recommendation := _get_health_recommendation score |}.

(** ** Savings tips *)

Record tip := {
  title : string;
  tip_text : string;
  tip_difficulty : string;
  impact : string
}.

(** The local table [tips] of [get_savings_tips]; the rupee sign of the
    texts is written [Rs]. *)
Definition tips : gmap string (list tip) :=
  <[ "beginner" :=
       [ {| title := "Start Small";
            tip_text := "Begin with saving just Rs 100 per day. It adds up to Rs 36,500 per year!";
            tip_difficulty := "Easy"; impact := "High" |};
         {| title := "Use the 50/30/20 Rule";
            tip_text := "50% for needs, 30% for wants, 20% for savings";
            tip_difficulty := "Easy"; impact := "High" |};
         {| title := "Track Every Rupee";
            tip_text := "Use apps to track all expenses. Awareness leads to better decisions.";
            tip_difficulty := "Easy"; impact := "Medium" |} ] ]>
  (<[ "intermediate" :=
       [ {| title := "Automate Savings";
            tip_text := "Set up automatic transfers to savings account on payday";
            tip_difficulty := "Easy"; impact := "High" |};
         {| title := "Cut Subscriptions";
            tip_text := "Review and cancel unused subscriptions. Save Rs 500-2000 monthly.";
            tip_difficulty := "Medium"; impact := "Medium" |};
         {| title := "Meal Planning";
            tip_text := "Plan meals weekly to reduce food waste and dining out costs";
            tip_difficulty := "Medium"; impact := "High" |} ] ]>
  (<[ "advanced" :=
       [ {| title := "Side Hustle";
            tip_text := "Start a side business or freelance work for extra income";
            tip_difficulty := "Hard"; impact := "Very High" |};
         {| title := "Invest Wisely";
            tip_text := "Start SIP in mutual funds for long-term wealth building";
            tip_difficulty := "Medium"; impact := "Very High" |};
         {| title := "Negotiate Bills";
            tip_text := "Negotiate with service providers for better rates";
            tip_difficulty := "Hard"; impact := "Medium" |} ] ]> ∅)).

(** [d[key]]: a missing key raises [KeyError]. *)
Definition py_getitem {V : Type} (d : gmap string V) (key : string) : exc V :=
  match d !! key with
  | Some v => Val v
  | None => Raise (KeyError key)
  end.

(** [tips.get(user_profile, tips["general"])]: the arguments of a call are
    evaluated before the call, so the subscript [tips["general"]] runs for
    every profile. *)
Definition get_savings_tips (user_profile : string) : exc (list tip) :=
  fallback ← py_getitem tips "general";
  mret (default fallback (tips !! user_profile)).

(** The call without argument: [user_profile] takes its default. *)
Definition get_savings_tips_default : exc (list tip) := get_savings_tips "general".

(** ** Recommendations *)

(** One recommendation dict; the number interpolated into the text, if any,
    is kept next to it.  The rupee sign of the texts is written [Rs]. *)
Record recommendation_t := {
  category : string;
  priority : string;
  recommendation_text : string;
  recommendation_value : option Q;
  action_items : list string
}.

Definition emergency_fund_recommendation (income : Q) : recommendation_t :=
  let emergency_fund_target := income * 6 in
  {| category := "Emergency Fund";
     priority := "High";
     recommendation_text :=
       "Build an emergency fund of Rs {emergency_fund_target} (6 months of income)";
     recommendation_value := Some emergency_fund_target;
     action_items := [ "Set up automatic monthly transfers";
                       "Keep in high-yield savings account";
                       "Only use for true emergencies" ] |}.

Definition debt_recommendation : recommendation_t :=
  {| category := "Debt Management";
     priority := "High";
     recommendation_text := "Focus on paying off high-interest debt first";
     recommendation_value := None;
     action_items := [ "List all debts by interest rate";
                       "Pay minimum on all, extra on highest rate";
                       "Consider debt consolidation if beneficial" ] |}.

Definition investment_recommendation : recommendation_t :=
  {| category := "Investments";
     priority := "Medium";
     recommendation_text := "Start investing early for compound growth";
     recommendation_value := None;
     action_items := [ "Consider SIP in mutual funds";
                       "Diversify across asset classes";
                       "Start with index funds for beginners" ] |}.

Definition savings_recommendation (current_savings_rate : Q) : recommendation_t :=
  {| category := "Savings";
     priority := "Medium";
     recommendation_text := "Increase savings rate from {current_savings_rate}% to 20%";
     recommendation_value := Some current_savings_rate;
     action_items := [ "Review discretionary spending";
                       "Look for ways to reduce fixed expenses";
                       "Automate savings transfers" ] |}.

Definition insurance_recommendation : recommendation_t :=
  {| category := "Insurance";
     priority := "Medium";
     recommendation_text := "Ensure adequate insurance coverage";
     recommendation_value := None;
     action_items := [ "Health insurance: Rs 5-10 lakhs coverage";
                       "Term life insurance: 10x annual income";
                       "Consider disability insurance" ] |}.

(** The division of the savings rate is not guarded here. *)
Definition _generate_recommendations (income : Q) (expenses : gmap string Q)
    (goals : list string) (risk : string) (age : Z) : exc (list recommendation_t) :=
  let r1 := [emergency_fund_recommendation income] in
  let r2 := if Qlt_bool (income * 0.2) (expense expenses "debt_payments")
            then r1 ++ [debt_recommendation] else r1 in
  let r3 := if (age <? 40)%Z then r2 ++ [investment_recommendation] else r2 in
  ratio ← py_div (expense expenses "savings") income;
  let current_savings_rate := ratio * 100 in
  let r4 := if Qlt_bool current_savings_rate 20
            then r3 ++ [savings_recommendation current_savings_rate] else r3 in
  mret (r4 ++ [insurance_recommendation]).

(** ** The budget plan *)

(** The plan dict; [created_date], the time of the call, is left out. *)
Record budget_plan_t := {
  budget_plan : budget_allocation;
  recommendations : list recommendation_t;
  savings_challenges : list challenge;
  financial_health_score : financial_health
}.

Inductive budget_result :=
| BudgetError (msg : string)
| BudgetPlan (p : budget_plan_t).

(** The body of the [try] block of [create_personalized_budget]; [inl] is
    the early return of the error dict. *)
Definition build_budget (ud : user_data) : exc (string + budget_plan_t) :=
  let monthly_income := default 0 (monthly_income ud) in
  let current_expenses := default ∅ (current_expenses ud) in
  let financial_goals := default [] (financial_goals ud) in
  let risk_tolerance := default "moderate" (risk_tolerance ud) in
  let age := default 30%Z (age ud) in
  if Qle_bool monthly_income 0 then mret (inl "Invalid monthly income")
  else
    plan ← _calculate_budget_allocation monthly_income current_expenses financial_goals
              risk_tolerance age;
    recs ← _generate_recommendations monthly_income current_expenses financial_goals
              risk_tolerance age;
    let challenges := _create_savings_challenges monthly_income financial_goals in
    health ← _calculate_financial_health_score ud;
    mret (inr {| budget_plan := plan;
                 recommendations := recs;
                 savings_challenges := challenges;
                 financial_health_score := health |}).

Definition create_personalized_budget (ud : user_data) : budget_result :=
  match build_budget ud with
  | Val (inl msg) => BudgetError msg
  | Val (inr p) => BudgetPlan p
  | Raise _ => BudgetError "Failed to create budget plan"
  end.

End AIBudgetPlanner.

(** * [services/stock_service.py]: class [StockService] *)

Module StockService.
Import BankHealthAnalyzer.

Definition us_stocks : list string :=
  [ "AAPL"; "TSLA"; "MSFT"; "GOOGL"; "NVDA"; "AMZN" ].

Definition indian_stocks : list string :=
  [ "RELIANCE.NS"; "TCS.NS"; "HDFCBANK.NS"; "ICICIBANK.NS"; "INFY.NS"; "HUL.NS";
    "KOTAKBANK.NS"; "LT.NS"; "SBIN.NS"; "BHARTIARTL.NS"; "ITC.NS"; "ASIANPAINT.NS";
    "BAJFINANCE.NS"; "HCLTECH.NS"; "MARUTI.NS"; "TITAN.NS"; "ULTRACEMCO.NS";
    "WIPRO.NS"; "SUNPHARMA.NS"; "ONGC.NS"; "ADANIPORTS.NS"; "POWERGRID.NS"; "NTPC.NS";
    "COALINDIA.NS"; "INDUSINDBK.NS"; "TATAMOTORS.NS"; "JSWSTEEL.NS"; "HDFCLIFE.NS";
    "GRASIM.NS"; "BPCL.NS"; "EICHERMOT.NS"; "SBILIFE.NS"; "ADANIENT.NS"; "IOC.NS";
    "TECHM.NS"; "HINDALCO.NS"; "DRREDDY.NS"; "TATACONSUM.NS"; "CIPLA.NS"; "VEDL.NS";
    "BAJAJ-AUTO.NS"; "UPL.NS"; "HEROMOTOCO.NS"; "SHREECEM.NS"; "BRITANNIA.NS";
    "DIVISLAB.NS"; "GAIL.NS"; "BAJAJFINSV.NS"; "M&M.NS"; "DABUR.NS"; "PIDILITIND.NS";
    "BIOCON.NS"; "MOTHERSUMI.NS"; "LUPIN.NS"; "ACC.NS"; "AMBUJACEM.NS"; "PETRONET.NS";
    "GODREJCP.NS"; "MARICO.NS"; "SRF.NS"; "PNB.NS"; "BANDHANBNK.NS"; "BOSCHLTD.NS";
    "ICICIGI.NS"; "COLPAL.NS"; "AUROPHARMA.NS"; "HAVELLS.NS"; "UBL.NS"; "BEL.NS";
    "TATAPOWER.NS"; "EXIDEIND.NS"; "BANKBARODA.NS"; "MFSL.NS"; "INDIGO.NS";
    "TATACHEM.NS"; "SIEMENS.NS"; "RECLTD.NS"; "TATACOMM.NS"; "PGHH.NS";
    "TORNTPHARM.NS"; "PIIND.NS"; "LTI.NS"; "HINDPETRO.NS"; "NAVINFLUOR.NS";
    "BALKRISIND.NS"; "MINDTREE.NS"; "MGL.NS"; "GMRINFRA.NS"; "MRF.NS"; "GICRE.NS";
    "VOLTAS.NS"; "CONCOR.NS"; "BERGEPAINT.NS"; "IDFCFIRSTB.NS"; "SUNTV.NS";
    "L&TFH.NS" ].

(** What [yf.Ticker(stock)] gives for one symbol: the history frame of the
    last five days and the result of [ticker.info.get("shortName")], an
    exception when reading [ticker.info] raises. *)
Record quote := {
  history : list bar;
  shortName : exc (option string)
}.

(** One value of the returned dict. *)
Record stock_entry := {
  name : string;
  price : pyfloat;
  change : pyfloat;
  change_percent : pyfloat
}.

(** The body of the [try] block once the history is known not to be
    empty. *)
Definition stock_entry_of (stock : string) (q : quote) : exc stock_entry :=
  let closes := map Close (history q) in
  latest_close ← iloc_neg closes 1;
  previous_close ← iloc_neg closes 2;
  short_name ← shortName q;
  let diff := fsub (Fin latest_close) (Fin previous_close) in
  mret {| name := default stock short_name;
          price := fround2 (Fin latest_close);
          change := fround2 diff;
          change_percent := fround2 (fmul (fdiv diff (Fin previous_close)) (Fin 100)) |}.

Section Service.

(** [None] when [yf.Ticker] or [ticker.history] raises. *)
Variable supplier : string -> option quote.

(** The body of the loop: an empty history is skipped, an exception is
    logged and the stock left out. *)
Definition stock_step (stock_data : list (string * stock_entry)) (stock : string)
    : list (string * stock_entry) :=
  match supplier stock with
  | None => stock_data
  | Some q =>
      match history q with
      | [] => stock_data
      | _ =>
          match stock_entry_of stock q with
          | Val e => dict_set stock_data stock e
          | Raise _ => stock_data
          end
      end
  end.

Definition get_stock_data : list (string * stock_entry) :=
  let stocks := us_stocks ++ indian_stocks in
  fold_left stock_step stocks [].

End Service.

End StockService.

(** * [services/chatbot_service.py]: class [ChatbotService] *)

Module ChatbotService.

(** [Config.FINANCE_KEY_WORDS] of [config.py]. *)
Definition FINANCE_KEY_WORDS : list string :=
  [ "stock"; "stocks"; "share"; "shares"; "stock market"; "nifty"; "sensex"; "bse";
    "nse"; "bull market"; "bear market"; "ipo"; "intraday"; "technical analysis";
    "fundamental analysis"; "blue chip stocks"; "mid cap"; "small cap"; "large cap";
    "index fund"; "dividends"; "penny stocks"; "short selling"; "call option";
    "put option"; "derivatives"; "futures"; "options"; "hedging";
    "portfolio management"; "market cap"; "candlestick patterns"; "rsi"; "macd";
    "volume trading"; "swing trading"; "long-term investing"; "day trading";
    "mutual funds"; "ETF"; "REIT"; "SIP"; "high-frequency trading"; "algo trading";
    "financial news"; "investment strategies"; "arbitrage"; "bank"; "banking";
    "savings account"; "fixed deposit"; "current account"; "interest rate"; "loan";
    "personal loan"; "home loan"; "mortgage"; "credit score"; "CIBIL score";
    "debt consolidation"; "lending"; "EMI"; "debt"; "loan eligibility"; "credit card";
    "credit limit"; "secured loan"; "unsecured loan"; "gold loan"; "student loan";
    "auto loan"; "car loan"; "budget"; "budgeting"; "monthly budget"; "savings";
    "emergency fund"; "financial goals"; "spending habits"; "expense tracking";
    "income"; "salary"; "passive income"; "side hustle"; "financial independence";
    "early retirement"; "FIRE movement"; "cash flow"; "financial discipline";
    "saving money"; "money management"; "frugal living"; "how to save";
    "where to invest"; "cost-cutting"; "money-saving tips"; "wealth building";
    "financial freedom"; "investment"; "investing"; "compounding"; "ROI"; "net worth";
    "risk management"; "capital gains"; "asset allocation"; "real estate investing";
    "gold investment"; "silver investment"; "cryptocurrency"; "bitcoin"; "ethereum";
    "altcoins"; "stablecoins"; "NFT"; "blockchain"; "inflation"; "deflation"; "GDP";
    "economic growth"; "recession"; "depression"; "stagflation"; "fiscal policy";
    "monetary policy"; "central bank"; "RBI"; "Fed"; "federal reserve"; "repo rate";
    "reverse repo rate"; "yield curve"; "interest rates"; "exchange rate"; "forex";
    "currency trading"; "bond market"; "government bonds"; "treasury bonds";
    "retirement planning"; "401k"; "pension"; "NPS"; "EPF"; "PPF"; "gratuity";
    "tax planning"; "income tax"; "capital gains tax"; "tax benefits";
    "tax deductions"; "GST"; "TDS"; "tax rebate"; "financial advisor";
    "investment planner"; "wealth management"; "estate planning"; "inheritance";
    "money"; "finance"; "financial literacy"; "money problems"; "how to invest";
    "financial tips"; "financial security"; "how to manage money"; "best investments";
    "economic trends"; "financial crisis"; "insurance"; "health insurance";
    "life insurance"; "term insurance"; "ULIP"; "annuity"; "policyholder"; "premium";
    "financial fraud"; "Ponzi schemes"; "how to avoid financial scams";
    "digital payments"; "UPI"; "NEFT"; "RTGS"; "IMPS"; "payment gateways";
    "online banking" ].

(** Strings are byte strings; [lower] is [str.lower] on ASCII text. *)
Definition is_upper (c : Ascii.ascii) : bool :=
  let n := Ascii.nat_of_ascii c in (65 <=? n)%nat && (n <=? 90)%nat.

Definition lower_char (c : Ascii.ascii) : Ascii.ascii :=
  if is_upper c then Ascii.ascii_of_nat (Ascii.nat_of_ascii c + 32) else c.

Fixpoint lower (s : string) : string :=
  match s with
  | EmptyString => EmptyString
  | String c rest => String (lower_char c) (lower rest)
  end.

(** [needle in haystack] *)
Fixpoint contains (needle haystack : string) : bool :=
  String.prefix needle haystack
  || match haystack with
     | EmptyString => false
     | String _ rest => contains needle rest
     end.

Definition is_finance_related (question : string) : bool :=
  let question_lower := lower question in
  existsb (fun keyword => contains keyword question_lower) FINANCE_KEY_WORDS.

(** [s.replace(old, new)] for a non-empty [old]: occurrences are replaced
    from left to right without overlap; [skip] counts the characters of a
    replaced occurrence still to be passed over. *)
Fixpoint replace_from (old new : string) (skip : nat) (s : string) : string :=
  match s with
  | EmptyString => EmptyString
  | String c rest =>
      match skip with
      | S k => replace_from old new k rest
      | O =>
          if String.prefix old s
          then new +:+ replace_from old new (String.length old - 1) rest
          else String c (replace_from old new 0 rest)
      end
  end.

Definition str_replace (old new s : string) : string := replace_from old new 0 s.

Definition newline : string := String (Ascii.ascii_of_nat 10) EmptyString.

(** The bullet character U+2022 in UTF-8, followed by a space. *)
Definition bullet : string :=
  String (Ascii.ascii_of_nat 226) (String (Ascii.ascii_of_nat 128) (String (Ascii.ascii_of_nat 162) " ")).

Definition finance_prompt (question : string) : string :=
  "You are a helpful financial advisor. Provide a clear, informative, and practical answer to this finance-related question:"
  +:+ newline +:+ newline
  +:+ "Question: " +:+ question +:+ newline +:+ newline
  +:+ "Please format your response with:" +:+ newline
  +:+ "- Clear explanations" +:+ newline
  +:+ "- Practical tips when applicable" +:+ newline
  +:+ "- Bullet points for easy reading" +:+ newline
  +:+ "- Professional but friendly tone".

Definition not_finance_reply : string :=
  "This chatbot only answers finance-related questions. Please ask about stocks, investments, budgeting, or other financial topics.".

Definition apology_reply : string :=
  "I apologize, but I'm having trouble processing your request right now. Please try again later.".

Section Chat.

(** [model.generate_content(prompt).text]; [None] when the call raises. *)
Variable generate_content : string -> option string.

Definition get_response (question : string) : string :=
  if negb (is_finance_related question) then not_finance_reply
  else
    match generate_content (finance_prompt question) with
    | Some text => str_replace "*" bullet (str_replace "**" "" text)
    | None => apology_reply
    end.

End Chat.

End ChatbotService.

(** * [main.py]: the savings-tips route *)

Module Routes.

(** The JSON body of a response. *)
Inductive tips_body :=
| TipsJson (tips : list AIBudgetPlanner.tip)
| TipsErrorJson (msg : string).

(** [GET /api/savings-tips/<profile>]: the body and the status code. *)
Definition get_savings_tips (profile : string) : tips_body * Z :=
  match AIBudgetPlanner.get_savings_tips profile with
  | Val tips => (TipsJson tips, 200%Z)
  | Raise _ => (TipsErrorJson "Failed to fetch tips", 500%Z)
  end.

End Routes.

(** * Sample inputs and vocabulary of the statements *)

Module BankSamples.
Import BankHealthAnalyzer.

(** A data dict on which every block of the rubric awards its largest
    number of points. *)
Definition full_marks : bank_data :=
  {| bank_name := "HDFC Bank";
     symbol := "HDFCBANK.NS";
     current_price := Fin 100;
     price_change := Fin 10;
     price_change_pct := Fin 10;
     volatility := Fin 10;
     ma_20 := Fin 90;
     ma_50 := Fin 80;
     market_cap := PNum (Fin 200000000000);
     volume := 2000;
     avg_volume := 1000;
     high_52w := Fin 100;
     low_52w := Fin 70;
     pe_ratio := PNum (Fin 5);
     pb_ratio := PNum (Fin 1);
     dividend_yield := Fin 4 |}.

(** The initial values of [score] and [analysis]. *)
Definition start : scoring := {| acc_score := Fin 0; acc_analysis := [] |}.

(** [x] is the finite number [q]. *)
Definition finite_eq (x : pyfloat) (q : Q) : Prop :=
  match x with
  | Fin p => p == q
  | _ => False
  end.

(** A block adds between 0 and [hi] points to a finite score. *)
Definition adds_at_most (hi : Q) (block : scoring -> scoring) : Prop :=
  forall s q, acc_score s = Fin q ->
    exists q', acc_score (block s) = Fin q' /\ q <= q' <= q + hi.

(** The unrounded sector average, [total_score / bank_count]. *)
Definition sector_mean (sqrtQ : Q -> Q)
    (supplier : string -> option (list bar * ticker_info)) : pyfloat :=
  let acc := sector_loop sqrtQ supplier in
  fdiv (total_score acc) (Fin (inject_Z (bank_count acc))).

(** The report has a warning of level [lv]. *)
Definition has_level (lv : string) (w : warning_report) : Prop :=
  exists x, In x (warnings w) /\ level x = lv.

(** The invariant of the sector loop: the total is a finite number and the
    counter is the number of entries. *)
Definition loop_inv (acc : sector_acc) : Prop :=
  (exists t, total_score acc = Fin t) /\
  bank_count acc = Z.of_nat (length (sector_data acc)).

Definition flat_bar (c : Q) (v : Z) : bar :=
  {| Open := c; High := c; Low := c; Close := c; Volume := v |}.

Definition no_info : ticker_info :=
  {| marketCap := None; trailingPE := None; priceToBook := None; dividendYield := None |}.

Definition cheap_info (dy : option Q) : ticker_info :=
  {| marketCap := Some 5000000000000%Z; trailingPE := Some 5; priceToBook := Some 1;
     dividendYield := dy |}.

Definition fair_info : ticker_info :=
  {| marketCap := None; trailingPE := Some 15; priceToBook := Some 1;
     dividendYield := None |}.

(** Twenty sessions at a constant price and volume. *)
Definition quiet_history : list bar := replicate 20 (flat_bar 1 1000).

(** Nineteen sessions at 1, then one at [last] with volume [v]. *)
Definition rising_history (last : Q) (v : Z) : list bar :=
  replicate 19 (flat_bar 1 1000) ++ [flat_bar last v].

(** Two sessions with the same close. *)
Definition two_equal_bars (sym : string) : option (list bar * ticker_info) :=
  Some ([flat_bar 100 1000; flat_bar 100 1000], no_info).

(** Twenty sessions whose second-to-last close is 0. *)
Definition zero_previous_close_history : list bar :=
  replicate 18 (flat_bar 100 1000) ++ [flat_bar 0 1000; flat_bar 100 1000].

Definition zero_previous_close_supplier (sym : string)
    : option (list bar * ticker_info) :=
  Some (zero_previous_close_history, no_info).

(** Every bank scores 15. *)
Definition all_poor (sym : string) : option (list bar * ticker_info) :=
  Some (quiet_history, no_info).

(** Every bank scores 45. *)
Definition all_45 (sym : string) : option (list bar * ticker_info) :=
  Some (quiet_history, cheap_info (Some 0.02)).

(** Every bank scores 50. *)
Definition all_50 (sym : string) : option (list bar * ticker_info) :=
  Some (quiet_history, cheap_info (Some 0.04)).

(** Four banks of ten score 15, the six others 80; the mean is 54. *)
Definition four_poor_six_strong (sym : string) : option (list bar * ticker_info) :=
  if existsb (String.eqb sym) ["HDFCBANK.NS"; "ICICIBANK.NS"; "SBIN.NS"; "KOTAKBANK.NS"]
  then Some (quiet_history, no_info)
  else Some (rising_history 1.05 2000, cheap_info (Some 0.04)).

(** Nine banks score 50 and one scores 49.98; the mean is 49.998. *)
Definition just_below_50 (sym : string) : option (list bar * ticker_info) :=
  if String.eqb sym "IDBI.NS" then Some (rising_history 1.0249 1000, fair_info)
  else Some (quiet_history, cheap_info (Some 0.04)).

End BankSamples.

Module BudgetSamples.
Import AIBudgetPlanner.

(** A request with no income and a monthly debt payment. *)
Definition no_income_in_debt : user_data :=
  {| monthly_income := Some 0;
     current_expenses := Some (<["debt_payments" := 500]> (<["savings" := 100]> ∅));
     financial_goals := Some [];
     risk_tolerance := Some "moderate";
     age := Some 35%Z |}.

(** The points awarded by the goal-count factor. *)
Definition goal_points (goals : list string) : Z :=
  if (3 <=? length goals)%nat then 20
  else if (1 <=? length goals)%nat then 15
  else 0.

End BudgetSamples.

(** ** Vocabulary of the further properties *)

Module BankTerms.
Import BankHealthAnalyzer.

(** The record that [compute_metrics] builds from the last two closes, the
    last volume and the truncated average volume. *)
Definition metrics_of (sqrtQ : Q -> Q) (name sym : string) (hist : list bar)
    (info : ticker_info) (last prev : Q) (v avg : Z) : bank_data :=
  {| bank_name := name;
     symbol := sym;
     current_price := Fin (round2 last);
     price_change := Fin (round2 (last + - prev));
     price_change_pct := fround2 (fmul (fdiv (Fin (last + - prev)) (Fin prev)) (Fin 100));
     volatility := fround2 (annualized_volatility sqrtQ (map Close hist));
     ma_20 := fround2 (rolling_mean_last 20 (map Close hist));
     ma_50 := fround2 (rolling_mean_last 50 (map Close hist));
     market_cap := PStr (match marketCap info with
                         | Some z => pretty z
                         | None => "N/A"
                         end);
     volume := v;
     avg_volume := avg;
     high_52w := series_max (map High hist);
     low_52w := series_min (map Low hist);
     pe_ratio := ratio_or_na (trailingPE info);
     pb_ratio := ratio_or_na (priceToBook info);
     dividend_yield := match dividendYield info with
                       | Some q => if Qeq_bool q 0 then Fin 0 else Fin (q * 100)
                       | None => Fin 0
                       end |}.

Definition is_numeric (v : pyval) : nat :=
  match v with PNum _ => 1 | PStr _ => 0 end.

(** The overview entry of one bank of the roster, if its data could be
    fetched. *)
Definition scored_entry (sqrtQ : Q -> Q)
    (supplier : string -> option (list bar * ticker_info)) (name : string)
    : option (string * sector_entry) :=
  match get_bank_stock_data sqrtQ supplier name with
  | BankData d => Some (name, {| stock_data := d; entry_health := score_bank d |})
  | BankError _ => None
  end.

(** The entries of the banks with data, in roster order. *)
Definition scored_entries (sqrtQ : Q -> Q)
    (supplier : string -> option (list bar * ticker_info))
    : list (string * sector_entry) :=
  omap (scored_entry sqrtQ supplier) (map fst INDIAN_BANKS).

(** The total stays within 95 points per counted bank. *)
Definition total_inv (acc : sector_acc) : Prop :=
  (0 <= bank_count acc)%Z /\
  exists t, total_score acc = Fin t /\ 0 <= t <= 95 * inject_Z (bank_count acc).

End BankTerms.

Module BudgetTerms.
Import AIBudgetPlanner.





End BudgetTerms.

Module ChatTerms.
Import ChatbotService.

(** The string has an upper-case ASCII letter. *)
Fixpoint has_upper (s : string) : bool :=
  match s with
  | EmptyString => false
  | String c rest => is_upper c || has_upper rest
  end.

(** The asterisk. *)
Definition star : Ascii.ascii := Ascii.ascii_of_nat 42.

(** The string has an asterisk. *)
Fixpoint has_star (s : string) : bool :=
  match s with
  | EmptyString => false
  | String c rest => Ascii.eqb c star || has_star rest
  end.

(** The keywords that are written in lower case only. *)
Definition lowercase_keywords : list string :=
  filter (fun keyword => has_upper keyword = false) FINANCE_KEY_WORDS.

(** A provider that always answers with the same text. *)
Definition fixed_reply (text : string) (prompt : string) : option string := Some text.

End ChatTerms.

Module StockTerms.
Import BankHealthAnalyzer StockService.

(** The entry of one stock, if it gets one. *)
Definition quoted (supplier : string -> option quote) (stock : string)
    : option stock_entry :=
  match supplier stock with
  | None => None
  | Some q =>
      match history q with
      | [] => None
      | _ => match stock_entry_of stock q with
             | Val e => Some e
             | Raise _ => None
             end
      end
  end.

(** All the listed symbols. *)
Definition listed_stocks : list string := us_stocks ++ indian_stocks.

(** No symbol occurs twice. *)
Fixpoint distinct (l : list string) : bool :=
  match l with
  | [] => true
  | x :: rest => negb (existsb (String.eqb x) rest) && distinct rest
  end.

(** A supplier with two sessions for Apple and nothing else. *)
Definition apple_only (previous latest : Q) (stock : string) : option quote :=
  if String.eqb stock "AAPL"
  then Some {| history := [ {| Open := previous; High := previous; Low := previous;
                               Close := previous; Volume := 10 |};
                            {| Open := latest; High := latest; Low := latest;
                               Close := latest; Volume := 10 |} ];
               shortName := Val None |}
  else None.

End StockTerms.

(** * Properties *)

(** ** Rational comparisons and rounding *)

Lemma Qlt_bool_iff (a b : Q) : Qlt_bool a b = true <-> a < b.
Proof.
  unfold Qlt_bool. rewrite negb_true_iff.
  split.
  - intros H. apply Qnot_le_lt. intros Hle. apply Qle_bool_iff in Hle. congruence.
  - intros H. destruct (Qle_bool b a) eqn:E; [|reflexivity].
    apply Qle_bool_iff in E. lra.
Qed.

Lemma Qlt_bool_false (a b : Q) : Qlt_bool a b = false <-> b <= a.
Proof.
  unfold Qlt_bool. rewrite negb_false_iff. apply Qle_bool_iff.
Qed.

Lemma Qle_bool_false (a b : Q) : Qle_bool a b = false <-> b < a.
Proof.
  split.
  - intros H. apply Qnot_le_lt. intros Hle. apply Qle_bool_iff in Hle. congruence.
  - intros H. destruct (Qle_bool a b) eqn:E; [|reflexivity].
    apply Qle_bool_iff in E. lra.
Qed.

Lemma Qle_bool_inject_Z (a b : Z) : Qle_bool (inject_Z a) (inject_Z b) = (a <=? b)%Z.
Proof. unfold Qle_bool. cbn. rewrite !Z.mul_1_r. reflexivity. Qed.

Lemma round_half_even_close (q : Q) :
  - (1 # 2) <= inject_Z (round_half_even q) - q <= 1 # 2.
Proof.
  unfold round_half_even.
  pose proof (Qfloor_le q) as Hlo.
  pose proof (Qlt_floor q) as Hhi.
  rewrite inject_Z_plus in Hhi. change (inject_Z 1) with 1 in Hhi.
  destruct (Qcompare_spec (q - inject_Z (Qfloor q)) (1 # 2)) as [He|Hl|Hg].
  - destruct (Z.even (Qfloor q)).
    + lra.
    + rewrite inject_Z_plus. change (inject_Z 1) with 1. lra.
  - lra.
  - rewrite inject_Z_plus. change (inject_Z 1) with 1. lra.
Qed.


Lemma py_div_pos (a b : Q) : 0 < b -> py_div a b = Val (a / b).
Proof.
  intros Hb. unfold py_div.
  destruct (Qeq_bool b 0) eqn:E; [|reflexivity].
  apply Qeq_bool_eq in E. lra.
Qed.

(** ** The bank health analyzer *)

Module BankFacts.
Import BankHealthAnalyzer BankSamples.

(** *** The rubric *)

Ltac block_cases :=
  repeat match goal with
  | |- context [if ?c then _ else _] => destruct c eqn:?
  end.

Ltac block_done Hq :=
  cbn [award remark acc_score]; rewrite Hq; cbn [fadd];
  eexists; split; [reflexivity | lra].

Lemma price_performance_adds d : adds_at_most 20 (price_performance d).
Proof.
  intros s q Hq. unfold price_performance.
  destruct (price_change_pct d) as [x| | |]; cbn [fgt flt fabs fmul].
  - destruct (Qlt_bool 0 x) eqn:Hx; [|block_done Hq].
    unfold py_min. cbn [flt].
    destruct (Qlt_bool (Qabs x * 2) 20) eqn:Hm.
    + apply Qlt_bool_iff in Hm. pose proof (Qabs_nonneg x). block_done Hq.
    + block_done Hq.
  - cbn. rewrite Hq. cbn. eexists; split; [reflexivity | lra].
  - block_done Hq.
  - block_done Hq.
Qed.

Lemma volatility_assessment_adds d : adds_at_most 15 (volatility_assessment d).
Proof. intros s q Hq. unfold volatility_assessment. block_cases; block_done Hq. Qed.

Lemma moving_average_analysis_adds d : adds_at_most 15 (moving_average_analysis d).
Proof. intros s q Hq. unfold moving_average_analysis. block_cases; block_done Hq. Qed.

Lemma pe_valuation_range d : 0 <= fst (pe_valuation d) <= 15.
Proof.
  unfold pe_valuation. destruct (pe_ratio d); [cbn; lra|].
  block_cases; cbn; lra.
Qed.

Lemma pb_valuation_range d : 0 <= fst (pb_valuation d) <= 10.
Proof.
  unfold pb_valuation. destruct (pb_ratio d); [cbn; lra|].
  block_cases; cbn; lra.
Qed.

Lemma valuation_metrics_adds d : adds_at_most 25 (valuation_metrics d).
Proof.
  intros s q Hq. unfold valuation_metrics.
  pose proof (pe_valuation_range d) as Hpe. pose proof (pb_valuation_range d) as Hpb.
  destruct (pe_valuation d) as [pe n1], (pb_valuation d) as [pb n2].
  cbn [fst] in *. cbn [acc_score]. rewrite Hq. cbn [fadd].
  eexists; split; [reflexivity | lra].
Qed.

Lemma dividend_analysis_adds d : adds_at_most 10 (dividend_analysis d).
Proof. intros s q Hq. unfold dividend_analysis. block_cases; block_done Hq. Qed.

Lemma volume_analysis_adds d : adds_at_most 10 (volume_analysis d).
Proof. intros s q Hq. unfold volume_analysis. block_cases; block_done Hq. Qed.

Lemma market_position_adds d : adds_at_most 10 (market_position d).
Proof. intros s q Hq. unfold market_position. block_cases; block_done Hq. Qed.

(** The score of every data dict is a finite number between 0 and 105. *)
Lemma score_bank_bounds (d : bank_data) :
  exists q, health_score (score_bank d) = Fin q /\ 0 <= q <= 105.
Proof.
  unfold score_bank. cbn [health_score].
  destruct (price_performance_adds d {| acc_score := Fin 0; acc_analysis := [] |} 0 eq_refl)
    as (q1 & H1 & B1).
  destruct (volatility_assessment_adds d _ q1 H1) as (q2 & H2 & B2).
  destruct (moving_average_analysis_adds d _ q2 H2) as (q3 & H3 & B3).
  destruct (valuation_metrics_adds d _ q3 H3) as (q4 & H4 & B4).
  destruct (dividend_analysis_adds d _ q4 H4) as (q5 & H5 & B5).
  destruct (volume_analysis_adds d _ q5 H5) as (q6 & H6 & B6).
  destruct (market_position_adds d _ q6 H6) as (q7 & H7 & B7).
  exists q7. split; [exact H7 | lra].
Qed.

(** When [market_cap] is a string, as in every dict that
    [get_bank_stock_data] builds, the market-position block adds nothing. *)
Lemma market_position_of_string d s text :
  market_cap d = PStr text -> acc_score (market_position d s) = acc_score s.
Proof. intros H. unfold market_position. rewrite H. reflexivity. Qed.

(** C1: the health score stays between 0 and 100 and the largest points
    of the eight factors add up to 100.  The code does not keep this: on
    the data dict [full_marks] each factor awards its largest number of
    points, 20, 15, 15, 15, 10, 10, 10 and 10, and the returned score is
    105, above the [max_score] of 100 returned with it. *)
Theorem full_marks_score :
  finite_eq (health_score (score_bank full_marks)) 105 /\
  max_score (score_bank full_marks) = 100%Z /\
  calculate_bank_health_score (BankData full_marks) = Health (score_bank full_marks) /\
  finite_eq (acc_score (price_performance full_marks start)) 20 /\
  finite_eq (acc_score (volatility_assessment full_marks start)) 15 /\
  finite_eq (acc_score (moving_average_analysis full_marks start)) 15 /\
  fst (pe_valuation full_marks) == 15 /\
  fst (pb_valuation full_marks) == 10 /\
  finite_eq (acc_score (dividend_analysis full_marks start)) 10 /\
  finite_eq (acc_score (volume_analysis full_marks start)) 10 /\
  finite_eq (acc_score (market_position full_marks start)) 10 /\
  Qsum rubric_max_points == 105.
Proof. repeat split; vm_compute; reflexivity. Qed.

(** *** The market data normalizer *)

Lemma eqb_empty_false (sym : string) : sym <> "" -> String.eqb sym "" = false.
Proof. intros H. apply String.eqb_neq. exact H. Qed.

Lemma series_std_short sqrtQ (s : list pyfloat) :
  (length s <= 1)%nat -> series_std sqrtQ s = NaN.
Proof.
  intros H. unfold series_std.
  destruct (Nat.leb_spec (length s) 1); [reflexivity | lia].
Qed.

(** Two closes leave at most one return, whose sample deviation is
    undefined. *)
Lemma two_closes_volatility sqrtQ (c1 c2 : Q) :
  annualized_volatility sqrtQ [c1; c2] = NaN.
Proof.
  unfold annualized_volatility.
  rewrite series_std_short; [reflexivity|].
  cbn [pct_change pct_change_from].
  set (r := fsub _ _). unfold dropna.
  rewrite filter_cons_False by (cbn; discriminate).
  etransitivity; [apply length_filter|]. cbn. lia.
Qed.

Lemma iloc_neg_last {A} (s : list A) :
  s <> [] -> exists x, iloc_neg s 1 = Val x.
Proof.
  intros Hs. unfold iloc_neg.
  destruct (rev s) as [|x r] eqn:E.
  - apply (f_equal (@rev A)) in E. rewrite rev_involutive in E. contradiction.
  - exists x. reflexivity.
Qed.

Lemma rolling_mean_full (n : nat) (s : list Q) :
  (n <= length s)%nat -> exists q, rolling_mean_last n s = Fin q.
Proof.
  intros H. unfold rolling_mean_last.
  destruct (Nat.ltb_spec (length s) n); [lia|]. eexists; reflexivity.
Qed.

Lemma inf_times_100 (x : Q) : fround2 (fmul (inf_of_sign x) (Fin 100)) = inf_of_sign x.
Proof. unfold inf_of_sign. destruct (Qcompare x 0); reflexivity. Qed.

(** C3, as amended: for a series of exactly two bars, with equal closes or
    not, the annualized volatility is NaN, not 0, and the call returns the
    error result "Failed to fetch data for <bank>" instead of metrics. *)
Theorem two_bar_series sqrtQ supplier (name sym : string) (b1 b2 : bar) info :
  dict_get INDIAN_BANKS name = Some sym -> sym <> "" ->
  supplier sym = Some ([b1; b2], info) ->
  annualized_volatility sqrtQ (map Close [b1; b2]) = NaN /\
  get_bank_stock_data sqrtQ supplier name = failed_to_fetch name.
Proof.
  intros Hn Hs Hd. split.
  - apply two_closes_volatility.
  - unfold get_bank_stock_data. rewrite Hn, (eqb_empty_false _ Hs), Hd. reflexivity.
Qed.

Lemma two_bar_series_witness :
  annualized_volatility sqrt_approx [100; 100] = NaN /\
  get_bank_stock_data sqrt_approx two_equal_bars "HDFC Bank"
    = BankError "Failed to fetch data for HDFC Bank".
Proof.
  apply (two_bar_series sqrt_approx two_equal_bars "HDFC Bank" "HDFCBANK.NS"
           (flat_bar 100 1000) (flat_bar 100 1000) no_info).
  - reflexivity.
  - discriminate.
  - reflexivity.
Defined.

(** C3 as stated fails: on two bars with equal closes the volatility is
    NaN and the call returns an error result, so no metrics with volatility
    0 are produced. *)
Lemma two_equal_bars_fail :
  annualized_volatility sqrt_approx [100; 100] = NaN /\
  get_bank_stock_data sqrt_approx two_equal_bars "HDFC Bank"
    = BankError "Failed to fetch data for HDFC Bank" /\
  ~ (exists d, get_bank_stock_data sqrt_approx two_equal_bars "HDFC Bank" = BankData d
               /\ finite_eq (volatility d) 0).
Proof.
  split; [reflexivity|]. split; [reflexivity|].
  intros [d [Hd _]]. discriminate Hd.
Qed.

(** C4, as amended: there is no guard on the previous close.  For a series
    of at least 20 bars whose second-to-last close is 0 the call does not
    fail: it returns metrics whose [price_change_pct] is [+inf], [-inf] or
    NaN as the last close is positive, negative or zero. *)
Theorem zero_previous_close sqrtQ supplier (name sym : string) hist info (last prev : Q) :
  dict_get INDIAN_BANKS name = Some sym -> sym <> "" ->
  supplier sym = Some (hist, info) ->
  (20 <= length hist)%nat ->
  iloc_neg (map Close hist) 1 = Val last ->
  iloc_neg (map Close hist) 2 = Val prev ->
  prev == 0 ->
  exists d, get_bank_stock_data sqrtQ supplier name = BankData d /\
            price_change_pct d = inf_of_sign last.
Proof.
  intros Hn Hs Hd Hlen Hlast Hprev H0.
  unfold get_bank_stock_data. rewrite Hn, (eqb_empty_false _ Hs), Hd.
  destruct hist as [|b hist']; [cbn in Hlen; lia|].
  set (hist := b :: hist') in *.
  destruct (iloc_neg_last (map Volume hist)) as [v Hv]; [discriminate|].
  destruct (rolling_mean_full 20 (map (fun b => inject_Z (Volume b)) hist)) as [m Hm];
    [rewrite length_map; exact Hlen|].
  unfold compute_metrics. cbv zeta.
  rewrite Hlast. cbn [mbind exc_bind]. rewrite Hprev. cbn [mbind exc_bind].
  rewrite Hv. cbn [mbind exc_bind]. rewrite Hm. cbn [py_int mbind exc_bind mret exc_ret].
  eexists. split; [reflexivity|]. cbn [price_change_pct].
  cbn [fsub fneg fadd fdiv].
  assert (Qeq_bool prev 0 = true) as -> by (apply Qeq_bool_iff; exact H0).
  rewrite inf_times_100. unfold inf_of_sign.
  assert (E : last + - prev == last) by lra.
  rewrite (Qcompare_comp _ _ E 0 0 (Qeq_refl 0)). reflexivity.
Qed.

Lemma zero_previous_close_witness :
  exists d,
    get_bank_stock_data sqrt_approx zero_previous_close_supplier "HDFC Bank" = BankData d /\
    price_change_pct d = PInf.
Proof.
  apply (zero_previous_close sqrt_approx zero_previous_close_supplier "HDFC Bank"
           "HDFCBANK.NS" zero_previous_close_history no_info 100 0).
  - reflexivity.
  - discriminate.
  - reflexivity.
  - vm_compute. lia.
  - reflexivity.
  - reflexivity.
  - reflexivity.
Defined.

(** C4 as stated fails: on twenty bars whose second-to-last close is 0 the
    call returns metrics, not an error result, and [price_change_pct] is
    [+inf]. *)
Lemma zero_previous_close_no_failure :
  dict_get INDIAN_BANKS "HDFC Bank" = Some "HDFCBANK.NS" /\
  iloc_neg (map Close zero_previous_close_history) 2 = Val 0 /\
  (exists d,
     get_bank_stock_data sqrt_approx zero_previous_close_supplier "HDFC Bank" = BankData d /\
     price_change_pct d = PInf) /\
  ~ (exists msg,
       get_bank_stock_data sqrt_approx zero_previous_close_supplier "HDFC Bank"
         = BankError msg).
Proof.
  split; [reflexivity|]. split; [reflexivity|]. split.
  - eexists. split; [vm_compute; reflexivity | reflexivity].
  - intros [msg H]. vm_compute in H. discriminate H.
Qed.

(** *** The sector aggregator *)

Lemma dict_set_fresh_length {V} (d : list (string * V)) k v :
  dict_get d k = None -> length (dict_set d k v) = S (length d).
Proof.
  induction d as [|[k' w] d IH]; intros H; [reflexivity|].
  cbn in *. destruct (String.eqb k' k); [discriminate|].
  cbn. rewrite IH by exact H. reflexivity.
Qed.

Lemma dict_get_set_other {V} (d : list (string * V)) k k' v :
  k <> k' -> dict_get (dict_set d k v) k' = dict_get d k'.
Proof.
  intros Hne. induction d as [|[k0 w] d IH]; cbn.
  - destruct (String.eqb_spec k k'); [contradiction|reflexivity].
  - destruct (String.eqb_spec k0 k) as [->|Hk]; cbn.
    + destruct (String.eqb_spec k k'); [contradiction|reflexivity].
    + rewrite IH. reflexivity.
Qed.

Section SectorFacts.

Variable sqrtQ : Q -> Q.
Variable supplier : string -> option (list bar * ticker_info).

Lemma sector_step_inv acc name :
  dict_get (sector_data acc) name = None -> loop_inv acc ->
  loop_inv (sector_step sqrtQ supplier acc name) /\
  forall k, k <> name ->
    dict_get (sector_data (sector_step sqrtQ supplier acc name)) k
      = dict_get (sector_data acc) k.
Proof.
  intros Hfresh [[t Ht] Hc]. unfold sector_step.
  destruct (get_bank_stock_data sqrtQ supplier name) as [msg|d].
  - split; [split; [exists t; exact Ht | exact Hc] | reflexivity].
  - cbn [calculate_bank_health_score].
    destruct (score_bank_bounds d) as (q & Hq & _).
    split; [split|]; cbn [total_score bank_count sector_data].
    + rewrite Ht, Hq. eexists; reflexivity.
    + rewrite dict_set_fresh_length by exact Hfresh. lia.
    + intros k Hk. apply dict_get_set_other. congruence.
Qed.

Lemma sector_fold_inv (names : list string) acc :
  List.NoDup names ->
  (forall k, In k names -> dict_get (sector_data acc) k = None) ->
  loop_inv acc ->
  loop_inv (fold_left (sector_step sqrtQ supplier) names acc).
Proof.
  revert acc. induction names as [|n names IH]; intros acc Hnd Hfresh Hinv; [exact Hinv|].
  cbn [fold_left]. apply List.NoDup_cons_iff in Hnd as [Hn Hnd].
  destruct (sector_step_inv acc n (Hfresh n (or_introl eq_refl)) Hinv) as [Hinv' Hsame].
  apply IH; [exact Hnd | | exact Hinv'].
  intros k Hk. rewrite Hsame; [apply Hfresh; right; exact Hk|].
  intros ->. contradiction.
Qed.

(** Every bank of the roster is entered at most once, so the counter is the
    size of the overview, and the total is a finite number. *)
Lemma sector_loop_inv : loop_inv (sector_loop sqrtQ supplier).
Proof.
  unfold sector_loop. apply sector_fold_inv.
  - cbn. repeat (apply List.NoDup_cons_iff; split; [cbn; intuition discriminate|]).
    apply List.NoDup_nil.
  - reflexivity.
  - split; [eexists; reflexivity | reflexivity].
Qed.

Lemma sector_mean_finite :
  (0 < bank_count (sector_loop sqrtQ supplier))%Z ->
  exists t, total_score (sector_loop sqrtQ supplier) = Fin t /\
    sector_mean sqrtQ supplier
      = Fin (t / inject_Z (bank_count (sector_loop sqrtQ supplier))).
Proof.
  intros Hpos. destruct sector_loop_inv as [[t Ht] _].
  exists t. split; [exact Ht|]. unfold sector_mean. cbv zeta. rewrite Ht. cbn [fdiv].
  destruct (Qeq_bool _ 0) eqn:E; [|reflexivity].
  apply Qeq_bool_eq in E.
  assert (Hq : inject_Z 0 < inject_Z (bank_count (sector_loop sqrtQ supplier)))
    by (rewrite <- Zlt_Qlt; exact Hpos).
  change (inject_Z 0) with 0 in Hq. lra.
Qed.

Lemma overview_shape o :
  get_banking_sector_overview sqrtQ supplier = Sector o ->
  (0 < bank_count (sector_loop sqrtQ supplier))%Z /\
  o = {| sector_overview := sector_data (sector_loop sqrtQ supplier);
         average_sector_score := fround2 (sector_mean sqrtQ supplier);
         sector_sentiment := fst (sentiment_of (sector_mean sqrtQ supplier));
         sentiment_color := snd (sentiment_of (sector_mean sqrtQ supplier));
         total_banks_analyzed := bank_count (sector_loop sqrtQ supplier) |}.
Proof.
  unfold get_banking_sector_overview, sector_mean. cbv zeta.
  destruct (Z.ltb_spec 0 (bank_count (sector_loop sqrtQ supplier))) as [Hpos|Hz];
    [|discriminate].
  intros Ho. injection Ho as <-. split; [exact Hpos | exact eq_refl].
Qed.

(** The two warning rules, on any supplier. *)
Lemma warning_rules_general o :
  get_banking_sector_overview sqrtQ supplier = Sector o ->
  exists w mean,
    get_early_warning_indicators sqrtQ supplier = Warnings w /\
    sector_mean sqrtQ supplier = Fin mean /\
    average_sector_score o = Fin (round2 mean) /\
    sector_health_score w = average_sector_score o /\
    total_banks_analyzed o = Z.of_nat (length (sector_overview o)) /\
    (has_level "High" w <-> round2 mean < 50) /\
    (has_level "Medium" w <->
       inject_Z (Z.of_nat (length (sector_overview o))) * 0.3
         < inject_Z (Z.of_nat (count_poor (sector_overview o)))).
Proof.
  intros Ho. unfold get_early_warning_indicators. rewrite Ho.
  destruct (overview_shape o Ho) as [Hpos ->].
  destruct (sector_mean_finite Hpos) as (t & Ht & Hmean).
  cbn [sector_overview average_sector_score total_banks_analyzed].
  rewrite Hmean. cbn [fround2 flt].
  set (mean := t / _).
  set (n := length (sector_data (sector_loop sqrtQ supplier))).
  set (poor := count_poor (sector_data (sector_loop sqrtQ supplier))).
  eexists; exists mean. split; [reflexivity|]. split; [reflexivity|].
  split; [reflexivity|]. split; [reflexivity|].
  split; [apply sector_loop_inv|].
  unfold has_level. cbn [warnings].
  destruct (Qlt_bool (round2 mean) 50) eqn:E1;
    destruct (Qlt_bool (inject_Z (Z.of_nat n) * 0.3) (inject_Z (Z.of_nat poor))) eqn:E2;
    (split; (split; [ intros (x & Hin & Hl) | intros Hlt ]));
    try (apply Qlt_bool_iff; assumption);
    try (apply Qlt_bool_iff in Hlt; congruence);
    try (cbn in Hin; intuition (subst; discriminate)).
  all: first
      [ exists (low_sector_health (Fin (round2 mean)));
        split; [cbn; tauto | reflexivity]
      | exists (multiple_banks_under_stress poor n);
        split; [cbn; tauto | reflexivity] ].
Qed.

End SectorFacts.

(** C6: the sector sentiment is read off the average score: Bullish from
    70 up, Neutral from 50 up to 70, Bearish below 50; so 70 is Bullish,
    69.99 and 50 are Neutral and 49.99 is Bearish.  The table differs from
    the status bands: 70 is in the top sentiment band but has status Good,
    and 45 is in the bottom sentiment band but has status Fair.  The
    overview applies the table to [total_score / bank_count]. *)
Theorem sentiment_bands (q : Q) :
  (70 <= q -> fst (sentiment_of (Fin q)) = "Bullish") /\
  (50 <= q -> q < 70 -> fst (sentiment_of (Fin q)) = "Neutral") /\
  (q < 50 -> fst (sentiment_of (Fin q)) = "Bearish") /\
  fst (sentiment_of (Fin 70)) = "Bullish" /\
  fst (sentiment_of (Fin 69.99)) = "Neutral" /\
  fst (sentiment_of (Fin 50)) = "Neutral" /\
  fst (sentiment_of (Fin 49.99)) = "Bearish" /\
  fst (health_status (Fin 70)) = "Good" /\
  fst (health_status (Fin 45)) = "Fair" /\
  fst (sentiment_of (Fin 45)) = "Bearish" /\
  forall sqrtQ supplier o,
    get_banking_sector_overview sqrtQ supplier = Sector o ->
    sector_sentiment o = fst (sentiment_of (sector_mean sqrtQ supplier)) /\
    exists mean, sector_mean sqrtQ supplier = Fin mean.
Proof.
  split; [|split; [|split]].
  - intros H. unfold sentiment_of. cbn [fge fle].
    assert (Qle_bool 70 q = true) as -> by (apply Qle_bool_iff; exact H). reflexivity.
  - intros H1 H2. unfold sentiment_of. cbn [fge fle].
    assert (Qle_bool 70 q = false) as -> by (apply Qle_bool_false; exact H2).
    assert (Qle_bool 50 q = true) as -> by (apply Qle_bool_iff; exact H1). reflexivity.
  - intros H. unfold sentiment_of. cbn [fge fle].
    assert (Qle_bool 70 q = false) as -> by (apply Qle_bool_false; lra).
    assert (Qle_bool 50 q = false) as -> by (apply Qle_bool_false; exact H). reflexivity.
  - do 7 (split; [reflexivity|]).
    intros sqrtQ supplier o Ho.
    destruct (overview_shape sqrtQ supplier o Ho) as [Hpos ->].
    split; [reflexivity|].
    destruct (sector_mean_finite sqrtQ supplier Hpos) as (t & _ & Hm).
    eexists; exact Hm.
Qed.

Lemma sentiment_bands_witness :
  fst (sentiment_of (Fin 69.99)) = "Neutral" /\
  (exists o, get_banking_sector_overview sqrt_approx all_45 = Sector o /\
             sector_sentiment o = "Bearish").
Proof.
  destruct (sentiment_bands 69.99) as (_ & Hneutral & _ & _ & _ & _ & _ & _ & _ & _ & Hov).
  split.
  - apply Hneutral; lra.
  - eexists. split; [vm_compute; reflexivity|]. reflexivity.
Defined.

(** C7, as amended: the High warning is emitted exactly when the average
    that the overview reports, which is the mean of the scores rounded to
    two decimals, is below 50; the Medium warning is emitted exactly when
    strictly more than 30% of the scored banks have a score below 40.  The
    two rules are independent: both fire when every bank scores 15, only
    High when every bank scores 45, only Medium when four banks of ten
    score 15 and the mean is 54, and neither when every bank scores 50. *)
Theorem warning_rules :
  (forall sqrtQ supplier o,
     get_banking_sector_overview sqrtQ supplier = Sector o ->
     exists w mean,
       get_early_warning_indicators sqrtQ supplier = Warnings w /\
       sector_mean sqrtQ supplier = Fin mean /\
       average_sector_score o = Fin (round2 mean) /\
       total_banks_analyzed o = Z.of_nat (length (sector_overview o)) /\
       (has_level "High" w <-> round2 mean < 50) /\
       (has_level "Medium" w <->
          inject_Z (Z.of_nat (length (sector_overview o))) * 0.3
            < inject_Z (Z.of_nat (count_poor (sector_overview o))))) /\
  (exists w, get_early_warning_indicators sqrt_approx all_poor = Warnings w /\
             map level (warnings w) = ["High"; "Medium"]) /\
  (exists w, get_early_warning_indicators sqrt_approx all_45 = Warnings w /\
             map level (warnings w) = ["High"] /\
             finite_eq (sector_health_score w) 45) /\
  (exists w o, get_early_warning_indicators sqrt_approx four_poor_six_strong = Warnings w /\
               map level (warnings w) = ["Medium"] /\
               get_banking_sector_overview sqrt_approx four_poor_six_strong = Sector o /\
               count_poor (sector_overview o) = 4%nat /\
               length (sector_overview o) = 10%nat) /\
  (exists w, get_early_warning_indicators sqrt_approx all_50 = Warnings w /\
             map level (warnings w) = []).
Proof.
  split; [|split; [|split; [|split]]].
  - intros sqrtQ supplier o Ho.
    destruct (warning_rules_general sqrtQ supplier o Ho)
      as (w & mean & Hw & Hm & Ha & _ & Hn & Hh & Hmed).
    exists w, mean. repeat split; try assumption; try apply Hh; try apply Hmed.
  - eexists. split; [vm_compute; reflexivity | reflexivity].
  - eexists. split; [vm_compute; reflexivity|]. split; [reflexivity | vm_compute; reflexivity].
  - eexists; eexists. split; [vm_compute; reflexivity|]. split; [reflexivity|].
    split; [vm_compute; reflexivity|]. split; reflexivity.
  - eexists. split; [vm_compute; reflexivity | reflexivity].
Qed.

Lemma warning_rules_witness :
  exists w, get_early_warning_indicators sqrt_approx all_45 = Warnings w /\
            has_level "High" w.
Proof.
  assert (exists o, get_banking_sector_overview sqrt_approx all_45 = Sector o) as [o Ho]
    by (eexists; vm_compute; reflexivity).
  destruct (proj1 warning_rules sqrt_approx all_45 o Ho)
    as (w & mean & Hw & Hm & _ & _ & Hh & _).
  exists w. split; [exact Hw|]. apply Hh.
  assert (Hc : exists m, sector_mean sqrt_approx all_45 = Fin m /\ round2 m < 50)
    by (eexists; split; vm_compute; reflexivity).
  destruct Hc as (m & Hc & Hlt). rewrite Hc in Hm. injection Hm as <-. exact Hlt.
Defined.

(** C7 as stated fails: with nine banks at 50 and one at 49.98 the average
    score is 49.998, below 50, and the sentiment is Bearish, yet no High
    warning is emitted, because the reported average is 50.00. *)
Lemma mean_below_50_without_high_warning :
  exists w o mean,
    get_early_warning_indicators sqrt_approx just_below_50 = Warnings w /\
    get_banking_sector_overview sqrt_approx just_below_50 = Sector o /\
    sector_mean sqrt_approx just_below_50 = Fin mean /\
    mean == 49.998 /\ mean < 50 /\
    sector_sentiment o = "Bearish" /\
    finite_eq (average_sector_score o) 50 /\
    warnings w = [] /\
    ~ has_level "High" w.
Proof.
  eexists; eexists; eexists.
  split; [vm_compute; reflexivity|].
  split; [vm_compute; reflexivity|].
  split; [vm_compute; reflexivity|].
  split; [vm_compute; reflexivity|].
  split; [vm_compute; reflexivity|].
  split; [reflexivity|].
  split; [vm_compute; reflexivity|].
  split; [reflexivity|].
  intros (x & [] & _).
Qed.

End BankFacts.

(** ** The budget planner *)

Module BudgetFacts.
Import AIBudgetPlanner BudgetSamples.

(** *** Budget allocation *)





(** *** The 52-week challenge *)

Lemma py_sum_app (xs ys : list Z) : py_sum (xs ++ ys) = (py_sum xs + py_sum ys)%Z.
Proof.
  unfold py_sum. rewrite fold_left_app.
  generalize (fold_left Z.add xs 0%Z) as a.
  induction ys as [|y ys IH]; intros a; simpl.
  - lia.
  - rewrite IH. rewrite (IH (0 + y)%Z). lia.
Qed.

Lemma py_range_succ (n : nat) :
  py_range 1 (Z.of_nat (S n) + 1) = py_range 1 (Z.of_nat n + 1) ++ [Z.of_nat (S n)].
Proof.
  unfold py_range.
  replace (Z.to_nat (Z.of_nat (S n) + 1 - 1)) with (S n) by lia.
  replace (Z.to_nat (Z.of_nat n + 1 - 1)) with n by lia.
  rewrite seq_S, map_app. simpl. f_equal. f_equal. lia.
Qed.

Lemma twice_sum_range (n : nat) :
  (2 * py_sum (py_range 1 (Z.of_nat n + 1)) = Z.of_nat n * (Z.of_nat n + 1))%Z.
Proof.
  induction n as [|n IH].
  - reflexivity.
  - rewrite py_range_succ, py_sum_app.
    change (py_sum [Z.of_nat (S n)]) with (0 + Z.of_nat (S n))%Z. lia.
Qed.

(** [sum(range(1, k + 1))] is [k (k + 1) / 2] for every [k >= 0]. *)
Lemma sum_range_closed_form (k : Z) :
  (0 <= k)%Z -> py_sum (py_range 1 (k + 1)) = (k * (k + 1) / 2)%Z.
Proof.
  intros Hk. pose proof (twice_sum_range (Z.to_nat k)) as H.
  rewrite Z2Nat.id in H by lia.
  rewrite <- H. rewrite Z.mul_comm, Z.div_mul by lia. reflexivity.
Qed.

Lemma breakdown_entry (k : Z) :
  (1 <= k <= 52)%Z ->
  nth_error _generate_52_week_breakdown (Z.to_nat (k - 1)) =
    Some {| week := k; week_amount := k; cumulative := py_sum (py_range 1 (k + 1)) |}.
Proof.
  intros Hk. unfold _generate_52_week_breakdown.
  apply map_nth_error
    with (f := fun week => {| week := week; week_amount := week;
                              cumulative := py_sum (py_range 1 (week + 1)) |}).
  unfold py_range.
  replace (Z.to_nat (53 - 1)) with 52%nat by reflexivity.
  erewrite map_nth_error;
    [|rewrite nth_error_seq; destruct (Nat.ltb_spec (Z.to_nat (k - 1)) 52);
      [reflexivity | lia]].
  f_equal. lia.
Qed.

(** C8: in the breakdown of the 52-week challenge the entry of week [k],
    for [k] from 1 to 52, saves [k] and has cumulative amount
    [k (k + 1) / 2]; the breakdown has 52 entries, the last cumulative
    amount is 1378, and the challenge carries the total 1378 whatever the
    income. *)
Theorem weekly_cumulative (k : Z) :
  (1 <= k <= 52)%Z ->
  (exists e, nth_error _generate_52_week_breakdown (Z.to_nat (k - 1)) = Some e /\
             week e = k /\ week_amount e = k /\
             cumulative e = (k * (k + 1) / 2)%Z) /\
  length _generate_52_week_breakdown = 52%nat /\
  (cumulative <$> last _generate_52_week_breakdown) = Some 1378%Z /\
  forall income goals,
    exists c rest, _create_savings_challenges income goals = c :: rest /\
      challenge_id c = "52_week" /\
      total_savings c = Some 1378%Z /\
      weekly_breakdown c = Some _generate_52_week_breakdown.
Proof.
  intros Hk. split; [|split; [|split]].
  - eexists. split; [apply (breakdown_entry k Hk)|]. cbn [week week_amount cumulative].
    repeat split. apply sum_range_closed_form. lia.
  - reflexivity.
  - reflexivity.
  - intros income goals. eexists; eexists. split; [reflexivity|]. repeat split.
Qed.

Lemma weekly_cumulative_witness :
  exists e, nth_error _generate_52_week_breakdown 51 = Some e /\ cumulative e = 1378%Z.
Proof.
  destruct (weekly_cumulative 52 ltac:(lia)) as [[e [He [_ [_ Hc]]]] _].
  exists e. split; [exact He | exact Hc].
Defined.

(** *** The financial health score *)

Lemma zero_income_guard (income : Q) : income == 0 -> Qlt_bool 0 income = false.
Proof. intros H. apply Qlt_bool_false. lra. Qed.

Lemma goals_factor_points goals s :
  acc_score (goals_factor goals s) = (acc_score s + goal_points goals)%Z.
Proof.
  unfold goals_factor, goal_points.
  destruct (3 <=? length goals)%nat; [reflexivity|].
  destruct (1 <=? length goals)%nat; [reflexivity|]. cbn. lia.
Qed.

Lemma guarded_ratio_total (income x : Q) :
  exists r, (if Qlt_bool 0 income then py_div x income else mret 0) = Val r.
Proof.
  destruct (Qlt_bool 0 income) eqn:E.
  - apply Qlt_bool_iff in E. rewrite (py_div_pos _ _ E). eexists; reflexivity.
  - eexists; reflexivity.
Qed.

(** The scorer returns a result for every request: no division raises. *)
Lemma financial_health_total (ud : user_data) :
  exists h, _calculate_financial_health_score ud = Val h /\
            status h = fst (overall_status (score h)) /\
            max_score h = 100%Z.
Proof.
  unfold _calculate_financial_health_score, savings_rate_of, debt_ratio_of,
    emergency_months_of. cbv zeta.
  set (income := default 0 (monthly_income ud)).
  destruct (Qlt_bool 0 income) eqn:E.
  - apply Qlt_bool_iff in E. rewrite !(py_div_pos _ _ E).
    cbn [mbind exc_bind mret exc_ret]. eexists. repeat split.
  - cbn [mbind exc_bind mret exc_ret]. eexists. repeat split.
Qed.

(** C9, as amended: with an income of 0 no division takes place and the
    savings rate, the debt ratio and the emergency-fund months are all 0;
    the savings-rate and emergency-fund factors then add their lowest
    tier, 0 points, while the debt factor, where lower is better, adds its
    highest tier, 20 points; the score is 20 plus the points for the
    goals. *)
Theorem zero_income_ratios (ud : user_data) :
  default 0 (monthly_income ud) == 0 ->
  let income := default 0 (monthly_income ud) in
  let expenses := default ∅ (current_expenses ud) in
  savings_rate_of income expenses = Val 0 /\
  debt_ratio_of income expenses = Val 0 /\
  emergency_months_of income expenses = Val 0 /\
  (forall s, acc_score (savings_factor 0 s) = acc_score s) /\
  (forall s, acc_score (debt_factor 0 s) = (acc_score s + 20)%Z) /\
  (forall s, acc_score (emergency_factor 0 s) = acc_score s) /\
  exists h, _calculate_financial_health_score ud = Val h /\
            score h = (20 + goal_points (default [] (financial_goals ud)))%Z.
Proof.
  intros H0 income expenses.
  assert (Hinc : income == 0) by exact H0.
  pose proof (zero_income_guard income H0) as Hg.
  assert (Hs : savings_rate_of income expenses = Val 0)
    by (unfold savings_rate_of; rewrite Hg; reflexivity).
  assert (Hd : debt_ratio_of income expenses = Val 0)
    by (unfold debt_ratio_of; rewrite Hg; reflexivity).
  assert (He : emergency_months_of income expenses = Val 0)
    by (unfold emergency_months_of; rewrite Hg; reflexivity).
  repeat split; try assumption; try reflexivity.
  unfold _calculate_financial_health_score.
  fold income expenses. rewrite Hs, Hd, He. cbn [mbind exc_bind mret exc_ret].
  eexists. split; [reflexivity|]. cbn [score].
  change (emergency_factor 0 ?s) with (remark Negative "Insufficient emergency fund" (Some 0) s).
  cbn [acc_score remark]. rewrite goals_factor_points.
  change (debt_factor 0 ?s) with (award 20 Positive "Excellent debt management" (Some 0) s).
  change (savings_factor 0 ?s) with (remark Negative "Low savings rate" (Some 0) s).
  cbn [acc_score remark award].
  assert (Hi : acc_score (income_factor income {| acc_score := 0; acc_factors := [] |}) = 0%Z).
  { unfold income_factor.
    assert (Qlt_bool 50000 income = false) as -> by (apply Qlt_bool_false; lra).
    assert (Qlt_bool 30000 income = false) as -> by (apply Qlt_bool_false; lra).
    assert (Qlt_bool 15000 income = false) as -> by (apply Qlt_bool_false; lra).
    reflexivity. }
  rewrite Hi. lia.
Qed.

Lemma zero_income_ratios_witness :
  exists h, _calculate_financial_health_score no_income_in_debt = Val h /\ score h = 20%Z.
Proof.
  destruct (zero_income_ratios no_income_in_debt) as (_ & _ & _ & _ & _ & _ & h & Hh & Hs).
  - reflexivity.
  - exists h. split; [exact Hh | exact Hs].
Defined.

(** C9 as stated fails: with an income of 0 and a debt payment of 500 the
    debt factor does not add its lowest tier; it adds 20 points, its highest
    tier, with the line "Excellent debt management", and the score is 20. *)
Lemma zero_income_debt_top_tier :
  exists h, _calculate_financial_health_score no_income_in_debt = Val h /\
    score h = 20%Z /\
    acc_score (debt_factor 0 {| acc_score := 0; acc_factors := [] |}) = 20%Z /\
    In {| factor_marker := Positive; factor_text := "Excellent debt management";
          factor_value := Some 0 |} (factors h).
Proof.
  eexists. split; [reflexivity|].
  split; [reflexivity|]. split; [reflexivity|].
  right; right; left; reflexivity.
Qed.

(** *** Savings tips *)

Lemma tips_has_no_general : tips !! "general" = None.
Proof. reflexivity. Qed.

(** The fallback is looked up before the profile: the call raises for
    every profile. *)
Lemma get_savings_tips_raises (user_profile : string) :
  get_savings_tips user_profile = Raise (KeyError "general").
Proof. unfold get_savings_tips, py_getitem. rewrite tips_has_no_general. reflexivity. Qed.

(** C10: for every profile other than "beginner", "intermediate" and
    "advanced", the default "general" included, the profile is not in the
    table, the table has no entry "general" either, and the call raises
    [KeyError] for the key "general" instead of returning tips. *)
Theorem unknown_profile_raises (user_profile : string) :
  user_profile <> "beginner" -> user_profile <> "intermediate" ->
  user_profile <> "advanced" ->
  tips !! user_profile = None /\
  tips !! "general" = None /\
  get_savings_tips user_profile = Raise (KeyError "general").
Proof.
  intros H1 H2 H3. split; [|split; [reflexivity | apply get_savings_tips_raises]].
  unfold tips. rewrite !lookup_insert_ne by congruence. apply lookup_empty.
Qed.

Lemma unknown_profile_raises_witness :
  get_savings_tips_default = Raise (KeyError "general").
Proof.
  unfold get_savings_tips_default.
  apply (unknown_profile_raises "general"); discriminate.
Defined.

End BudgetFacts.

(** ** The status bands of the two scorers *)

Lemma health_status_of_integer (z : Z) :
  BankHealthAnalyzer.health_status (Fin (inject_Z z)) = AIBudgetPlanner.overall_status z.
Proof.
  unfold BankHealthAnalyzer.health_status, AIBudgetPlanner.overall_status.
  cbn [fge fle].
  change 80 with (inject_Z 80). change 60 with (inject_Z 60). change 40 with (inject_Z 40).
  rewrite !Qle_bool_inject_Z. reflexivity.
Qed.

(** C5: both scorers turn the total score into a status by the same
    bands with closed lower bounds: 80 and above is Excellent, 60 up to 80
    is Good, 40 up to 60 is Fair, below 40 is Poor; so 80 is Excellent and
    79 is Good.  Each scorer reports the status of its own score. *)
Theorem status_bands_shared (q : Q) (z : Z) :
  (80 <= q -> fst (BankHealthAnalyzer.health_status (Fin q)) = "Excellent") /\
  (60 <= q -> q < 80 -> fst (BankHealthAnalyzer.health_status (Fin q)) = "Good") /\
  (40 <= q -> q < 60 -> fst (BankHealthAnalyzer.health_status (Fin q)) = "Fair") /\
  (q < 40 -> fst (BankHealthAnalyzer.health_status (Fin q)) = "Poor") /\
  ((80 <= z)%Z -> fst (AIBudgetPlanner.overall_status z) = "Excellent") /\
  ((60 <= z < 80)%Z -> fst (AIBudgetPlanner.overall_status z) = "Good") /\
  ((40 <= z < 60)%Z -> fst (AIBudgetPlanner.overall_status z) = "Fair") /\
  ((z < 40)%Z -> fst (AIBudgetPlanner.overall_status z) = "Poor") /\
  AIBudgetPlanner.overall_status z
    = BankHealthAnalyzer.health_status (Fin (inject_Z z)) /\
  fst (BankHealthAnalyzer.health_status (Fin 80)) = "Excellent" /\
  fst (BankHealthAnalyzer.health_status (Fin 79)) = "Good" /\
  fst (AIBudgetPlanner.overall_status 80) = "Excellent" /\
  fst (AIBudgetPlanner.overall_status 79) = "Good" /\
  (forall d,
     BankHealthAnalyzer.status (BankHealthAnalyzer.score_bank d)
       = fst (BankHealthAnalyzer.health_status
                (BankHealthAnalyzer.health_score (BankHealthAnalyzer.score_bank d)))) /\
  (forall ud, exists h,
     AIBudgetPlanner._calculate_financial_health_score ud = Val h /\
     AIBudgetPlanner.status h
       = fst (AIBudgetPlanner.overall_status (AIBudgetPlanner.score h))).
Proof.
  assert (Hb : forall a b, a <= b -> Qle_bool a b = true)
    by (intros a b H; apply Qle_bool_iff; exact H).
  assert (Hf : forall a b, b < a -> Qle_bool a b = false)
    by (intros a b H; apply Qle_bool_false; exact H).
  unfold BankHealthAnalyzer.health_status. cbn [fge fle].
  split; [intros H; rewrite (Hb _ _ H); reflexivity|].
  split; [intros H1 H2; rewrite (Hf _ _ H2), (Hb _ _ H1); reflexivity|].
  split; [intros H1 H2; rewrite (Hf 80 q), (Hf _ _ H2), (Hb _ _ H1) by lra; reflexivity|].
  split; [intros H; rewrite (Hf 80 q), (Hf 60 q), (Hf _ _ H) by lra; reflexivity|].
  unfold AIBudgetPlanner.overall_status.
  split; [intros H; destruct (Z.leb_spec 80 z); [reflexivity | lia]|].
  split; [intros H; destruct (Z.leb_spec 80 z); [lia|];
          destruct (Z.leb_spec 60 z); [reflexivity | lia]|].
  split; [intros H; destruct (Z.leb_spec 80 z); [lia|];
          destruct (Z.leb_spec 60 z); [lia|];
          destruct (Z.leb_spec 40 z); [reflexivity | lia]|].
  split; [intros H; destruct (Z.leb_spec 80 z); [lia|];
          destruct (Z.leb_spec 60 z); [lia|];
          destruct (Z.leb_spec 40 z); [lia | reflexivity]|].
  split; [symmetry; apply health_status_of_integer|].
  do 4 (split; [reflexivity|]).
  split; [intros d; reflexivity|].
  intros ud. destruct (BudgetFacts.financial_health_total ud) as (h & Hh & Hs & _).
  exists h. split; [exact Hh | exact Hs].
Qed.

Lemma status_bands_shared_witness :
  fst (BankHealthAnalyzer.health_status (Fin 80)) = "Excellent" /\
  fst (AIBudgetPlanner.overall_status 79) = "Good".
Proof.
  destruct (status_bands_shared 80 79) as (Hq & _ & _ & _ & _ & Hz & _).
  split; [apply Hq; lra | apply Hz; lia].
Defined.

(** ** Further properties of the bank health analyzer *)

Module BankMoreFacts.
Import BankHealthAnalyzer BankSamples BankFacts BankTerms.

Lemma iloc_neg_second {A} (s : list A) :
  (2 <= length s)%nat -> exists x, iloc_neg s 2 = Val x.
Proof.
  intros H. unfold iloc_neg. rewrite <- length_rev in H.
  destruct (rev s) as [|a [|b r]]; cbn in H; try lia.
  exists b. reflexivity.
Qed.

Lemma iloc_neg_second_short {A} (s : list A) :
  (length s < 2)%nat -> iloc_neg s 2 = Raise IndexError.
Proof.
  intros H. unfold iloc_neg. rewrite <- length_rev in H.
  destruct (rev s) as [|a [|b r]]; cbn in H; try lia; reflexivity.
Qed.

Lemma rolling_mean_short (n : nat) (s : list Q) :
  (length s < n)%nat -> rolling_mean_last n s = NaN.
Proof.
  intros H. unfold rolling_mean_last.
  destruct (Nat.ltb_spec (length s) n); [reflexivity | lia].
Qed.

(** What [compute_metrics] returns, whenever it returns. *)
Lemma compute_metrics_val sqrtQ name sym hist info d :
  compute_metrics sqrtQ name sym hist info = Val d ->
  exists last prev v avg,
    iloc_neg (map Close hist) 1 = Val last /\
    iloc_neg (map Close hist) 2 = Val prev /\
    iloc_neg (map Volume hist) 1 = Val v /\
    py_int (rolling_mean_last 20 (map (fun b => inject_Z (Volume b)) hist)) = Val avg /\
    d = metrics_of sqrtQ name sym hist info last prev v avg.
Proof.
  unfold compute_metrics. cbv zeta.
  destruct (iloc_neg (map Close hist) 1) as [last|]; [|discriminate].
  destruct (iloc_neg (map Close hist) 2) as [prev|]; [|discriminate].
  destruct (iloc_neg (map Volume hist) 1) as [v|]; [|discriminate].
  destruct (py_int _) as [avg|]; [|discriminate].
  cbn [mbind exc_bind mret exc_ret]. intros [= <-].
  exists last, prev, v, avg. repeat split.
Qed.

(** Twenty sessions are enough for [compute_metrics] to return. *)
Lemma compute_metrics_full sqrtQ name sym hist info :
  (20 <= length hist)%nat ->
  exists d, compute_metrics sqrtQ name sym hist info = Val d.
Proof.
  intros Hlen.
  destruct (iloc_neg_last (map Close hist)) as [last Hlast];
    [destruct hist; [cbn in Hlen; lia | discriminate]|].
  destruct (iloc_neg_second (map Close hist)) as [prev Hprev];
    [rewrite length_map; lia|].
  destruct (iloc_neg_last (map Volume hist)) as [v Hv];
    [destruct hist; [cbn in Hlen; lia | discriminate]|].
  destruct (rolling_mean_full 20 (map (fun b => inject_Z (Volume b)) hist)) as [m Hm];
    [rewrite length_map; exact Hlen|].
  unfold compute_metrics. cbv zeta.
  rewrite Hlast. cbn [mbind exc_bind]. rewrite Hprev. cbn [mbind exc_bind].
  rewrite Hv. cbn [mbind exc_bind]. rewrite Hm. cbn [py_int mbind exc_bind mret exc_ret].
  eexists. reflexivity.
Qed.

(** With fewer than twenty sessions [compute_metrics] raises. *)
Lemma compute_metrics_short sqrtQ name sym hist info :
  (length hist < 20)%nat ->
  exists e, compute_metrics sqrtQ name sym hist info = Raise e.
Proof.
  intros Hlen. unfold compute_metrics. cbv zeta.
  destruct (iloc_neg (map Close hist) 1) as [last|e]; [|eexists; reflexivity].
  destruct (iloc_neg (map Close hist) 2) as [prev|e]; [|eexists; reflexivity].
  destruct (iloc_neg (map Volume hist) 1) as [v|e]; [|eexists; reflexivity].
  cbn [mbind exc_bind].
  rewrite (rolling_mean_short 20 (map (fun b => inject_Z (Volume b)) hist))
    by (rewrite length_map; exact Hlen).
  eexists. reflexivity.
Qed.

(** The data dict of a known bank comes from [compute_metrics] on what the
    supplier gave. *)
Lemma stock_data_origin sqrtQ supplier name d :
  get_bank_stock_data sqrtQ supplier name = BankData d ->
  exists sym hist info,
    dict_get INDIAN_BANKS name = Some sym /\
    supplier sym = Some (hist, info) /\
    hist <> [] /\
    compute_metrics sqrtQ name sym hist info = Val d.
Proof.
  unfold get_bank_stock_data.
  destruct (dict_get INDIAN_BANKS name) as [sym|]; [|discriminate].
  destruct (String.eqb sym ""); [discriminate|].
  destruct (supplier sym) as [[hist info]|] eqn:Hsup; [|discriminate].
  destruct hist as [|b hist]; [discriminate|].
  destruct (compute_metrics sqrtQ name sym (b :: hist) info) as [d'|] eqn:E; [|discriminate].
  intros [= <-]. exists sym, (b :: hist), info.
  split; [reflexivity|]. split; [exact Hsup|]. split; [discriminate | exact E].
Qed.

(** X1: a known bank gets metrics exactly when the supplier returns at least
    20 sessions: an empty history gives "No data available", a shorter one
    "Failed to fetch data". *)
Theorem metrics_need_twenty_sessions sqrtQ supplier (name sym : string) hist info :
  dict_get INDIAN_BANKS name = Some sym -> sym <> "" ->
  supplier sym = Some (hist, info) ->
  (hist = [] ->
     get_bank_stock_data sqrtQ supplier name
       = BankError ("No data available for " +:+ name)) /\
  (hist <> [] -> (length hist < 20)%nat ->
     get_bank_stock_data sqrtQ supplier name = failed_to_fetch name) /\
  ((20 <= length hist)%nat ->
     exists d, get_bank_stock_data sqrtQ supplier name = BankData d /\
               bank_name d = name /\ symbol d = sym).
Proof.
  intros Hn Hs Hd. unfold get_bank_stock_data.
  rewrite Hn, (eqb_empty_false _ Hs), Hd. split; [|split].
  - intros ->. reflexivity.
  - intros Hne Hlen. destruct hist as [|b hist]; [contradiction|].
    destruct (compute_metrics_short sqrtQ name sym (b :: hist) info Hlen) as [e ->].
    reflexivity.
  - intros Hlen. destruct hist as [|b hist]; [cbn in Hlen; lia|].
    destruct (compute_metrics_full sqrtQ name sym (b :: hist) info Hlen) as [d Hc].
    rewrite Hc. exists d. split; [reflexivity|].
    destruct (compute_metrics_val _ _ _ _ _ _ Hc) as (l & p & v & a & _ & _ & _ & _ & ->).
    split; reflexivity.
Qed.

Lemma metrics_need_twenty_sessions_witness :
  exists d, get_bank_stock_data sqrt_approx all_50 "Axis Bank" = BankData d /\
            symbol d = "AXISBANK.NS".
Proof.
  destruct (metrics_need_twenty_sessions sqrt_approx all_50 "Axis Bank" "AXISBANK.NS"
              quiet_history (cheap_info (Some 0.04))) as (_ & _ & H).
  - reflexivity.
  - discriminate.
  - reflexivity.
  - destruct H as (d & Hd & _ & Hs); [vm_compute; lia|].
    exists d. split; [exact Hd | exact Hs].
Defined.

(** X2: whatever the data dict holds (NaN and infinities included) the score
    is a finite number between 0 and 105. *)
Theorem health_score_range (d : bank_data) :
  exists q, health_score (score_bank d) = Fin q /\ 0 <= q <= 105 /\
            calculate_bank_health_score (BankData d) = Health (score_bank d).
Proof.
  destruct (score_bank_bounds d) as (q & Hq & B).
  exists q. split; [exact Hq|]. split; [exact B | reflexivity].
Qed.

Lemma stock_data_of_history sqrtQ supplier name sym hist info d :
  dict_get INDIAN_BANKS name = Some sym ->
  supplier sym = Some (hist, info) ->
  get_bank_stock_data sqrtQ supplier name = BankData d ->
  exists last prev v avg,
    iloc_neg (map Close hist) 1 = Val last /\
    iloc_neg (map Close hist) 2 = Val prev /\
    iloc_neg (map Volume hist) 1 = Val v /\
    d = metrics_of sqrtQ name sym hist info last prev v avg.
Proof.
  intros Hn Hd Hget.
  destruct (stock_data_origin _ _ _ _ Hget) as (sym' & hist' & info' & Hn' & Hd' & _ & Hc).
  rewrite Hn in Hn'. injection Hn' as <-. rewrite Hd in Hd'. injection Hd' as <- <-.
  destruct (compute_metrics_val _ _ _ _ _ _ Hc) as (l & p & v & a & H1 & H2 & H3 & _ & ->).
  exists l, p, v, a. repeat split; assumption.
Qed.

Lemma market_position_adds_nothing d text :
  market_cap d = PStr text -> adds_at_most 0 (market_position d).
Proof.
  intros H s q Hq. exists q.
  rewrite (market_position_of_string d s text H). split; [exact Hq | lra].
Qed.

Lemma score_bank_chain d (m1 m2 : Q) :
  adds_at_most m1 (moving_average_analysis d) ->
  adds_at_most m2 (market_position d) ->
  exists q, health_score (score_bank d) = Fin q /\ 0 <= q <= 80 + m1 + m2.
Proof.
  intros Hma Hmp. unfold score_bank. cbn [health_score].
  destruct (price_performance_adds d {| acc_score := Fin 0; acc_analysis := [] |} 0 eq_refl)
    as (q1 & H1 & B1).
  destruct (volatility_assessment_adds d _ q1 H1) as (q2 & H2 & B2).
  destruct (Hma _ q2 H2) as (q3 & H3 & B3).
  destruct (valuation_metrics_adds d _ q3 H3) as (q4 & H4 & B4).
  destruct (dividend_analysis_adds d _ q4 H4) as (q5 & H5 & B5).
  destruct (volume_analysis_adds d _ q5 H5) as (q6 & H6 & B6).
  destruct (Hmp _ q6 H6) as (q7 & H7 & B7).
  exists q7. split; [exact H7 | lra].
Qed.

Lemma pipeline_score_bound sqrtQ supplier name d :
  get_bank_stock_data sqrtQ supplier name = BankData d ->
  exists q, health_score (score_bank d) = Fin q /\ 0 <= q <= 95.
Proof.
  intros Hget.
  destruct (stock_data_origin _ _ _ _ Hget) as (sym & hist & info & _ & _ & _ & Hc).
  destruct (compute_metrics_val _ _ _ _ _ _ Hc) as (l & p & v & a & _ & _ & _ & _ & ->).
  set (d := metrics_of sqrtQ name sym hist info l p v a) in *.
  assert (Hcap : exists text, market_cap d = PStr text) by (eexists; reflexivity).
  destruct Hcap as [text Hcap].
  destruct (score_bank_chain d 15 0 (moving_average_analysis_adds d)
              (market_position_adds_nothing d text Hcap)) as (q & Hq & B).
  exists q. split; [exact Hq | lra].
Qed.

(** X3: in a data dict built by [get_bank_stock_data] the market cap is a
    string, so the market-position block adds nothing and the score is at most
    95, within [max_score]. *)
Theorem fetched_score_at_most_95 sqrtQ supplier name d :
  get_bank_stock_data sqrtQ supplier name = BankData d ->
  (exists text, market_cap d = PStr text) /\
  (forall s, acc_score (market_position d s) = acc_score s) /\
  exists q, health_score (score_bank d) = Fin q /\ 0 <= q <= 95 /\
            q <= inject_Z (max_score (score_bank d)).
Proof.
  intros Hget.
  destruct (pipeline_score_bound _ _ _ _ Hget) as (q & Hq & B).
  destruct (stock_data_origin _ _ _ _ Hget) as (sym & hist & info & _ & _ & _ & Hc).
  destruct (compute_metrics_val _ _ _ _ _ _ Hc) as (l & p & v & a & _ & _ & _ & _ & Hd).
  split; [rewrite Hd; eexists; reflexivity|].
  split; [intros s; rewrite Hd; reflexivity|].
  exists q. split; [exact Hq|]. split; [exact B|].
  change (inject_Z (max_score (score_bank d))) with 100. lra.
Qed.

Lemma fetched_score_at_most_95_witness :
  exists d q,
    get_bank_stock_data sqrt_approx four_poor_six_strong "IDBI Bank" = BankData d /\
    health_score (score_bank d) = Fin q /\ 0 <= q <= 95.
Proof.
  assert (H : exists d,
             get_bank_stock_data sqrt_approx four_poor_six_strong "IDBI Bank" = BankData d)
    by (eexists; vm_compute; reflexivity).
  destruct H as [d H].
  destruct (fetched_score_at_most_95 _ _ _ _ H) as (_ & _ & q & Hq & B & _).
  exists d, q. split; [exact H|]. split; [exact Hq | exact B].
Defined.

Lemma moving_average_without_ma_50 d :
  ma_50 d = NaN -> adds_at_most 10 (moving_average_analysis d).
Proof.
  intros H s q Hq. unfold moving_average_analysis. rewrite H.
  assert (fgt (ma_20 d) NaN = false) as -> by (destruct (ma_20 d); reflexivity).
  rewrite andb_false_r.
  destruct (fgt (current_price d) (ma_20 d)); cbn [award remark acc_score];
    rewrite Hq; cbn [fadd]; eexists; (split; [reflexivity | lra]).
Qed.

(** X4: with fewer than 50 sessions the 50-day average is NaN, the
    moving-average block adds at most 10 points and the score is at most 90.
    *)
Theorem short_history_caps_trend sqrtQ supplier (name sym : string) hist info d :
  dict_get INDIAN_BANKS name = Some sym ->
  supplier sym = Some (hist, info) ->
  get_bank_stock_data sqrtQ supplier name = BankData d ->
  (length hist < 50)%nat ->
  ma_50 d = NaN /\
  (forall s q, acc_score s = Fin q ->
     exists q', acc_score (moving_average_analysis d s) = Fin q' /\ q <= q' <= q + 10) /\
  exists q, health_score (score_bank d) = Fin q /\ 0 <= q <= 90.
Proof.
  intros Hn Hd Hget Hlen.
  destruct (stock_data_of_history _ _ _ _ _ _ _ Hn Hd Hget) as (l & p & v & a & _ & _ & _ & ->).
  assert (Hma : ma_50 (metrics_of sqrtQ name sym hist info l p v a) = NaN).
  { cbn [ma_50 metrics_of]. rewrite rolling_mean_short by (rewrite length_map; exact Hlen).
    reflexivity. }
  split; [exact Hma|]. split; [apply moving_average_without_ma_50; exact Hma|].
  set (d := metrics_of sqrtQ name sym hist info l p v a) in *.
  assert (Hcap : exists text, market_cap d = PStr text) by (eexists; reflexivity).
  destruct Hcap as [text Hcap].
  destruct (score_bank_chain d 10 0 (moving_average_without_ma_50 d Hma)
              (market_position_adds_nothing d text Hcap)) as (q & Hq & B).
  exists q. split; [exact Hq | lra].
Qed.

Lemma short_history_caps_trend_witness :
  exists d, get_bank_stock_data sqrt_approx four_poor_six_strong "IDBI Bank" = BankData d /\
            ma_50 d = NaN.
Proof.
  assert (H : exists d,
             get_bank_stock_data sqrt_approx four_poor_six_strong "IDBI Bank" = BankData d)
    by (eexists; vm_compute; reflexivity).
  destruct H as [d H]. exists d. split; [exact H|].
  apply (short_history_caps_trend sqrt_approx four_poor_six_strong "IDBI Bank" "IDBI.NS"
           (rising_history 1.05 2000) (cheap_info (Some 0.04)) d).
  - reflexivity.
  - reflexivity.
  - exact H.
  - vm_compute. lia.
Defined.

(** X5: with at least 20 sessions, a zero previous close and a positive last
    close, [price_change_pct] is [+inf] and the price block awards its full 20
    points. *)
Theorem zero_close_full_price_points sqrtQ supplier (name sym : string) hist info
    (c1 c2 : Q) :
  dict_get INDIAN_BANKS name = Some sym -> sym <> "" ->
  supplier sym = Some (hist, info) ->
  (20 <= length hist)%nat ->
  iloc_neg (map Close hist) 1 = Val c1 ->
  iloc_neg (map Close hist) 2 = Val c2 ->
  c2 == 0 -> 0 < c1 ->
  exists d, get_bank_stock_data sqrtQ supplier name = BankData d /\
    price_change_pct d = PInf /\
    forall s q, acc_score s = Fin q ->
      acc_score (price_performance d s) = Fin (q + 20) /\
      last (acc_analysis (price_performance d s))
        = Some {| note_marker := Positive; note_text := "Positive price performance";
                  note_value := Some PInf |}.
Proof.
  intros Hn Hs Hd Hlen Hlast Hprev H0 Hpos.
  destruct hist as [|b hist']; [cbn in Hlen; lia|]. set (hist := b :: hist') in *.
  destruct (compute_metrics_full sqrtQ name sym hist info Hlen) as [d Hc].
  exists d. split.
  { unfold get_bank_stock_data. rewrite Hn, (eqb_empty_false _ Hs), Hd.
    subst hist. rewrite Hc. reflexivity. }
  destruct (compute_metrics_val _ _ _ _ _ _ Hc) as (l & p & v & a & H1 & H2 & _ & _ & ->).
  rewrite Hlast in H1. injection H1 as <-. rewrite Hprev in H2. injection H2 as <-.
  assert (Hpct : price_change_pct (metrics_of sqrtQ name sym hist info c1 c2 v a) = PInf).
  { cbn [price_change_pct metrics_of fdiv].
    assert (Qeq_bool c2 0 = true) as -> by (apply Qeq_bool_iff; exact H0).
    rewrite inf_times_100. unfold inf_of_sign.
    assert (c1 + - c2 > 0) as Hgt by lra.
    apply Qgt_alt in Hgt. rewrite Hgt. reflexivity. }
  split; [exact Hpct|].
  intros s q Hq. unfold price_performance. rewrite Hpct. cbn. rewrite Hq. cbn.
  split; [reflexivity|]. rewrite last_snoc. reflexivity.
Qed.

Lemma zero_close_full_price_points_witness :
  exists d,
    get_bank_stock_data sqrt_approx zero_previous_close_supplier "HDFC Bank" = BankData d /\
    price_change_pct d = PInf /\
    acc_score (price_performance d start) = Fin (0 + 20).
Proof.
  destruct (zero_close_full_price_points sqrt_approx zero_previous_close_supplier "HDFC Bank"
              "HDFCBANK.NS" zero_previous_close_history no_info 100 0)
    as (d & Hd & Hp & Hs).
  - reflexivity.
  - discriminate.
  - reflexivity.
  - vm_compute. lia.
  - reflexivity.
  - reflexivity.
  - reflexivity.
  - reflexivity.
  - exists d. split; [exact Hd|]. split; [exact Hp|]. apply (Hs start 0). reflexivity.
Defined.

Lemma Qmax_cases (a b : Q) : (Qmax a b = a /\ b <= a) \/ (Qmax a b = b /\ a <= b).
Proof.
  unfold Qmax, GenericMinMax.gmax.
  destruct (Qcompare_spec a b) as [H|H|H].
  - left. split; [reflexivity | lra].
  - right. split; [reflexivity | lra].
  - left. split; [reflexivity | lra].
Qed.

Lemma Qmin_cases (a b : Q) : (Qmin a b = a /\ a <= b) \/ (Qmin a b = b /\ b <= a).
Proof.
  unfold Qmin, GenericMinMax.gmin.
  destruct (Qcompare_spec a b) as [H|H|H].
  - left. split; [reflexivity | lra].
  - left. split; [reflexivity | lra].
  - right. split; [reflexivity | lra].
Qed.

Lemma fold_max_spec (l : list Q) (a : Q) :
  In (fold_left Qmax l a) (a :: l) /\
  forall x, In x (a :: l) -> x <= fold_left Qmax l a.
Proof.
  revert a. induction l as [|y l IH]; intros a; cbn [fold_left].
  - split; [left; reflexivity|]. intros x [<-|[]]. lra.
  - destruct (IH (Qmax a y)) as [Hin Hge]. split.
    + destruct Hin as [Hin|Hin]; [|right; right; exact Hin].
      rewrite <- Hin. destruct (Qmax_cases a y) as [[-> _]|[-> _]];
        [left | right; left]; reflexivity.
    + intros x [<-|[<-|Hx]].
      * pose proof (Hge (Qmax a y) (or_introl eq_refl)) as Hm.
        pose proof (Q.le_max_l a y). lra.
      * pose proof (Hge (Qmax a y) (or_introl eq_refl)) as Hm.
        pose proof (Q.le_max_r a y). lra.
      * apply Hge. right. exact Hx.
Qed.

Lemma fold_min_spec (l : list Q) (a : Q) :
  In (fold_left Qmin l a) (a :: l) /\
  forall x, In x (a :: l) -> fold_left Qmin l a <= x.
Proof.
  revert a. induction l as [|y l IH]; intros a; cbn [fold_left].
  - split; [left; reflexivity|]. intros x [<-|[]]. lra.
  - destruct (IH (Qmin a y)) as [Hin Hge]. split.
    + destruct Hin as [Hin|Hin]; [|right; right; exact Hin].
      rewrite <- Hin. destruct (Qmin_cases a y) as [[-> _]|[-> _]];
        [left | right; left]; reflexivity.
    + intros x [<-|[<-|Hx]].
      * pose proof (Hge (Qmin a y) (or_introl eq_refl)) as Hm.
        pose proof (Q.le_min_l a y). lra.
      * pose proof (Hge (Qmin a y) (or_introl eq_refl)) as Hm.
        pose proof (Q.le_min_r a y). lra.
      * apply Hge. right. exact Hx.
Qed.

Lemma series_max_spec (s : list Q) :
  s <> [] -> exists m, series_max s = Fin m /\ In m s /\ forall x, In x s -> x <= m.
Proof.
  destruct s as [|a l]; [contradiction|]. intros _.
  destruct (fold_max_spec l a) as [Hin Hge].
  exists (fold_left Qmax l a). split; [reflexivity|]. split; assumption.
Qed.

Lemma series_min_spec (s : list Q) :
  s <> [] -> exists m, series_min s = Fin m /\ In m s /\ forall x, In x s -> m <= x.
Proof.
  destruct s as [|a l]; [contradiction|]. intros _.
  destruct (fold_min_spec l a) as [Hin Hge].
  exists (fold_left Qmin l a). split; [reflexivity|]. split; assumption.
Qed.

(** X6: [high_52w] and [low_52w] are a high and a low of the history, and
    every session lies between them. *)
Theorem range_brackets_every_session sqrtQ supplier (name sym : string) hist info d :
  dict_get INDIAN_BANKS name = Some sym ->
  supplier sym = Some (hist, info) ->
  get_bank_stock_data sqrtQ supplier name = BankData d ->
  exists hi lo,
    high_52w d = Fin hi /\ low_52w d = Fin lo /\
    (forall b, In b hist -> Low b >= lo /\ High b <= hi) /\
    (exists b, In b hist /\ High b = hi) /\
    (exists b, In b hist /\ Low b = lo).
Proof.
  intros Hn Hd Hget.
  destruct (stock_data_origin _ _ _ _ Hget) as (sym' & hist' & info' & Hn' & Hd' & Hne & _).
  rewrite Hn in Hn'. injection Hn' as <-. rewrite Hd in Hd'. injection Hd' as <- <-.
  destruct (stock_data_of_history _ _ _ _ _ _ _ Hn Hd Hget) as (l & p & v & a & _ & _ & _ & ->).
  destruct (series_max_spec (map High hist)) as (hi & Ehi & Hin_hi & Hhi);
    [destruct hist; [contradiction | discriminate]|].
  destruct (series_min_spec (map Low hist)) as (lo & Elo & Hin_lo & Hlo);
    [destruct hist; [contradiction | discriminate]|].
  exists hi, lo. cbn [high_52w low_52w metrics_of].
  split; [exact Ehi|]. split; [exact Elo|]. split; [|split].
  - intros b Hb. split.
    + apply Hlo. apply in_map. exact Hb.
    + apply Hhi. apply in_map. exact Hb.
  - apply in_map_iff in Hin_hi as (b & E & Hb). exists b. split; assumption.
  - apply in_map_iff in Hin_lo as (b & E & Hb). exists b. split; assumption.
Qed.

Lemma range_brackets_every_session_witness :
  exists d hi lo,
    get_bank_stock_data sqrt_approx four_poor_six_strong "IDBI Bank" = BankData d /\
    high_52w d = Fin hi /\ low_52w d = Fin lo /\ lo <= 1 /\ 1.05 <= hi.
Proof.
  assert (H : exists d,
             get_bank_stock_data sqrt_approx four_poor_six_strong "IDBI Bank" = BankData d)
    by (eexists; vm_compute; reflexivity).
  destruct H as [d H].
  destruct (range_brackets_every_session sqrt_approx four_poor_six_strong "IDBI Bank" "IDBI.NS"
              (rising_history 1.05 2000) (cheap_info (Some 0.04)) d eq_refl eq_refl H)
    as (hi & lo & Hhi & Hlo & Hall & _ & _).
  exists d, hi, lo. split; [exact H|]. split; [exact Hhi|]. split; [exact Hlo|]. split.
  - apply (Hall (flat_bar 1 1000)). left. reflexivity.
  - apply (Hall (flat_bar 1.05 2000)). vm_compute. auto 25.
Defined.

(** *** Analysis lines *)

Lemma block_one_line (block : bank_data -> scoring -> scoring) d s :
  (exists p n, block d s = award p n s) \/ (exists n, block d s = remark n s) ->
  length (acc_analysis (block d s)) = S (length (acc_analysis s)).
Proof.
  intros [(p & n & ->)|(n & ->)]; cbn [award remark acc_analysis];
    rewrite length_app; cbn; lia.
Qed.

Ltac one_line :=
  apply block_one_line;
  match goal with
  | |- context [?f _ _ = _] => unfold f
  end;
  repeat match goal with
  | |- context [if ?c then _ else _] => destruct c
  end;
  first [left; eexists; eexists; reflexivity | right; eexists; reflexivity].

(** X7: the analysis has one line per block, and one more for each of P/E and
    P/B that is a number: between 6 and 8 lines. *)
Theorem analysis_line_count (d : bank_data) :
  length (analysis (score_bank d))
    = (6 + is_numeric (pe_ratio d) + is_numeric (pb_ratio d))%nat /\
  (6 <= length (analysis (score_bank d)) <= 8)%nat.
Proof.
  assert (H : length (analysis (score_bank d))
              = (6 + is_numeric (pe_ratio d) + is_numeric (pb_ratio d))%nat).
  { unfold score_bank. cbn [analysis].
    assert (E7 : forall s, length (acc_analysis (market_position d s))
                           = S (length (acc_analysis s))) by (intros s; one_line).
    assert (E6 : forall s, length (acc_analysis (volume_analysis d s))
                           = S (length (acc_analysis s))) by (intros s; one_line).
    assert (E5 : forall s, length (acc_analysis (dividend_analysis d s))
                           = S (length (acc_analysis s))) by (intros s; one_line).
    assert (E3 : forall s, length (acc_analysis (moving_average_analysis d s))
                           = S (length (acc_analysis s))) by (intros s; one_line).
    assert (E2 : forall s, length (acc_analysis (volatility_assessment d s))
                           = S (length (acc_analysis s))) by (intros s; one_line).
    assert (E1 : forall s, length (acc_analysis (price_performance d s))
                           = S (length (acc_analysis s))) by (intros s; one_line).
    assert (E4 : forall s, length (acc_analysis (valuation_metrics d s))
                = (length (acc_analysis s) + is_numeric (pe_ratio d)
                   + is_numeric (pb_ratio d))%nat).
    { intros s. unfold valuation_metrics, pe_valuation, pb_valuation.
      destruct (pe_ratio d) as [|pe], (pb_ratio d) as [|pb]; cbn [is_numeric];
        repeat match goal with
        | |- context [if ?c then _ else _] => destruct c
        end; cbn [acc_analysis]; rewrite !length_app; cbn; lia. }
    rewrite E7, E6, E5, E4, E3, E2, E1. cbn. lia. }
  split; [exact H|]. rewrite H.
  destruct (pe_ratio d), (pb_ratio d); cbn; lia.
Qed.

(** *** Status and recommendation *)

(** X8: status, colour and recommendation of a bank always belong to the same
    band. *)
Theorem status_matches_recommendation (d : bank_data) :
  let h := score_bank d in
  (status h = "Excellent" /\ status_color h = "green" /\
   recommendation h = "Strong Buy - Excellent financial health and performance") \/
  (status h = "Good" /\ status_color h = "blue" /\
   recommendation h = "Buy - Good fundamentals with potential for growth") \/
  (status h = "Fair" /\ status_color h = "orange" /\
   recommendation h = "Hold - Monitor closely, consider reducing exposure") \/
  (status h = "Poor" /\ status_color h = "red" /\
   recommendation h = "Sell - Poor performance, consider alternatives").
Proof.
  cbv zeta. unfold score_bank.
  cbn [status status_color recommendation health_score].
  unfold health_status, _get_recommendation.
  set (sc := acc_score _).
  destruct (fge sc (Fin 80)); [left; repeat split|].
  destruct (fge sc (Fin 60)); [right; left; repeat split|].
  destruct (fge sc (Fin 40)); [right; right; left; repeat split|].
  right; right; right; repeat split.
Qed.

Lemma dict_set_fresh_app {V} (d : list (string * V)) k v :
  dict_get d k = None -> dict_set d k v = d ++ [(k, v)].
Proof.
  induction d as [|[k' w] d IH]; intros H; [reflexivity|].
  cbn in *. destruct (String.eqb k' k); [discriminate|].
  rewrite IH by exact H. reflexivity.
Qed.

Lemma dict_get_app_other {V} (d : list (string * V)) k k' v :
  k <> k' -> dict_get (d ++ [(k, v)]) k' = dict_get d k'.
Proof.
  intros Hne. induction d as [|[k0 w] d IH]; cbn.
  - destruct (String.eqb_spec k k'); [contradiction | reflexivity].
  - rewrite IH. reflexivity.
Qed.

Lemma omap_length_le {A B} (f : A -> option B) (l : list A) :
  (length (omap f l) <= length l)%nat.
Proof.
  induction l as [|x l IH]; cbn; [lia|].
  destruct (f x); cbn; lia.
Qed.

Section OverviewFacts.

Variable sqrtQ : Q -> Q.
Variable supplier : string -> option (list bar * ticker_info).

Lemma sector_step_data acc name :
  dict_get (sector_data acc) name = None ->
  sector_data (sector_step sqrtQ supplier acc name)
    = sector_data acc ++ match scored_entry sqrtQ supplier name with
                         | Some e => [e]
                         | None => []
                         end.
Proof.
  intros Hfresh. unfold sector_step, scored_entry.
  destruct (get_bank_stock_data sqrtQ supplier name) as [msg|d].
  - rewrite app_nil_r. reflexivity.
  - cbn [calculate_bank_health_score sector_data].
    apply dict_set_fresh_app. exact Hfresh.
Qed.

Lemma sector_fold_data (names : list string) acc :
  List.NoDup names ->
  (forall k, In k names -> dict_get (sector_data acc) k = None) ->
  sector_data (fold_left (sector_step sqrtQ supplier) names acc)
    = sector_data acc ++ omap (scored_entry sqrtQ supplier) names.
Proof.
  revert acc. induction names as [|n names IH]; intros acc Hnd Hfresh.
  - cbn. rewrite app_nil_r. reflexivity.
  - cbn [fold_left]. apply List.NoDup_cons_iff in Hnd as [Hn Hnd].
    pose proof (sector_step_data acc n (Hfresh n (or_introl eq_refl))) as Hstep.
    rewrite IH; [|exact Hnd|].
    + rewrite Hstep. cbn [omap list_omap].
      destruct (scored_entry sqrtQ supplier n) as [e|]; cbn.
      * rewrite <- app_assoc. reflexivity.
      * rewrite app_nil_r. reflexivity.
    + intros k Hk. rewrite Hstep.
      assert (Hkn : n <> k) by (intros ->; contradiction).
      unfold scored_entry. destruct (get_bank_stock_data sqrtQ supplier n) as [msg|d].
      * rewrite app_nil_r. apply Hfresh. right. exact Hk.
      * rewrite dict_get_app_other by exact Hkn. apply Hfresh. right. exact Hk.
Qed.

Lemma sector_loop_entries :
  sector_data (sector_loop sqrtQ supplier) = scored_entries sqrtQ supplier.
Proof.
  unfold sector_loop, scored_entries. rewrite sector_fold_data.
  - reflexivity.
  - cbn. repeat (apply List.NoDup_cons_iff; split; [cbn; intuition discriminate|]).
    apply List.NoDup_nil.
  - reflexivity.
Qed.

Lemma scored_entries_length : (length (scored_entries sqrtQ supplier) <= 10)%nat.
Proof.
  unfold scored_entries.
  etransitivity; [apply omap_length_le|]. reflexivity.
Qed.

Lemma sector_step_total acc name :
  total_inv acc -> total_inv (sector_step sqrtQ supplier acc name).
Proof.
  intros (Hc & t & Ht & B). unfold sector_step.
  destruct (get_bank_stock_data sqrtQ supplier name) as [msg|d] eqn:E.
  - split; [exact Hc|]. exists t. split; [exact Ht | exact B].
  - cbn [calculate_bank_health_score].
    destruct (pipeline_score_bound _ _ _ _ E) as (q & Hq & Bq).
    split; cbn [total_score bank_count]; [lia|].
    rewrite Ht, Hq. eexists. split; [reflexivity|].
    rewrite inject_Z_plus. change (inject_Z 1) with 1. lra.
Qed.

Lemma sector_loop_total : total_inv (sector_loop sqrtQ supplier).
Proof.
  unfold sector_loop.
  assert (H : forall names acc, total_inv acc ->
                total_inv (fold_left (sector_step sqrtQ supplier) names acc)).
  { induction names as [|n names IH]; intros acc Hacc; [exact Hacc|].
    cbn [fold_left]. apply IH. apply sector_step_total. exact Hacc. }
  apply H. split; [cbn; lia|]. exists 0. split; [reflexivity|].
  cbn [bank_count]. change (inject_Z 0) with 0. lra.
Qed.

End OverviewFacts.

Lemma inject_Z_pred (k : Z) : inject_Z (k - 1) == inject_Z k - 1.
Proof. unfold Z.sub. rewrite inject_Z_plus, inject_Z_opp. reflexivity. Qed.

(** Rounding to cents cannot cross a bound that is itself in cents. *)
Lemma round2_le_cents (m : Q) (k : Z) :
  m <= inject_Z k / 100 -> round2 m <= inject_Z k / 100.
Proof.
  intros H. unfold round2.
  pose proof (round_half_even_close (m * 100)) as Hc.
  set (r := round_half_even (m * 100)) in *.
  assert (E : forall z, inject_Z z / 100 == inject_Z z * (1 # 100)) by (intros z; reflexivity).
  rewrite !E in *.
  assert (Hlt : inject_Z r < inject_Z (k + 1))
    by (rewrite inject_Z_plus; change (inject_Z 1) with 1; lra).
  rewrite <- Zlt_Qlt in Hlt.
  assert (Hle : (r <= k)%Z) by lia.
  rewrite Zle_Qle in Hle. lra.
Qed.

Lemma round2_ge_cents (m : Q) (k : Z) :
  inject_Z k / 100 <= m -> inject_Z k / 100 <= round2 m.
Proof.
  intros H. unfold round2.
  pose proof (round_half_even_close (m * 100)) as Hc.
  set (r := round_half_even (m * 100)) in *.
  assert (E : forall z, inject_Z z / 100 == inject_Z z * (1 # 100)) by (intros z; reflexivity).
  rewrite !E in *.
  assert (Hlt : inject_Z (k - 1) < inject_Z r) by (rewrite inject_Z_pred; lra).
  rewrite <- Zlt_Qlt in Hlt.
  assert (Hle : (k <= r)%Z) by lia.
  rewrite Zle_Qle in Hle. lra.
Qed.

(** A rounded value strictly below a bound in cents is at least one cent
    below it, and so was the value before rounding up to half a cent. *)
Lemma round2_lt_cents (m : Q) (k : Z) :
  round2 m < inject_Z k / 100 ->
  round2 m <= inject_Z (k - 1) / 100 /\ m <= inject_Z k / 100 - (1 # 200).
Proof.
  unfold round2.
  pose proof (round_half_even_close (m * 100)) as Hc.
  set (r := round_half_even (m * 100)) in *.
  assert (E : forall z, inject_Z z / 100 == inject_Z z * (1 # 100)) by (intros z; reflexivity).
  rewrite !E. intros H.
  assert (Hlt : inject_Z r < inject_Z k) by lra.
  rewrite <- Zlt_Qlt in Hlt.
  assert (Hle : (r <= k - 1)%Z) by lia.
  rewrite Zle_Qle in Hle.
  rewrite inject_Z_pred in *. split; lra.
Qed.

(** X9: the sector overview holds exactly the banks whose data could be
    fetched, in roster order, with their own data and score; it is an error
    exactly when there is none. *)
Theorem overview_holds_fetched_banks sqrtQ supplier :
  (scored_entries sqrtQ supplier = [] ->
     get_banking_sector_overview sqrtQ supplier
       = SectorError "Unable to fetch banking sector data") /\
  (scored_entries sqrtQ supplier <> [] ->
     exists o, get_banking_sector_overview sqrtQ supplier = Sector o /\
       sector_overview o = scored_entries sqrtQ supplier /\
       total_banks_analyzed o = Z.of_nat (length (scored_entries sqrtQ supplier)) /\
       (1 <= total_banks_analyzed o <= 10)%Z).
Proof.
  pose proof (sector_loop_entries sqrtQ supplier) as Hdata.
  destruct (sector_loop_inv sqrtQ supplier) as [_ Hcount].
  pose proof (scored_entries_length sqrtQ supplier) as Hlen.
  rewrite Hdata in Hcount.
  unfold get_banking_sector_overview. cbv zeta. rewrite Hcount. split.
  - intros E. rewrite E. reflexivity.
  - intros Hne.
    destruct (scored_entries sqrtQ supplier) as [|e es] eqn:E; [contradiction|].
    destruct (Z.ltb_spec 0 (Z.of_nat (length (e :: es)))) as [Hpos|Hz];
      [|cbn [length] in Hz; lia].
    eexists. split; [reflexivity|].
    cbn [sector_overview total_banks_analyzed]. split; [exact Hdata|].
    split; [reflexivity | lia].
Qed.

Lemma overview_holds_fetched_banks_witness :
  exists o, get_banking_sector_overview sqrt_approx all_45 = Sector o /\
            total_banks_analyzed o = 10%Z.
Proof.
  destruct (proj2 (overview_holds_fetched_banks sqrt_approx all_45)) as (o & Ho & _ & Hn & _).
  - vm_compute. discriminate.
  - exists o. split; [exact Ho|]. rewrite Hn. vm_compute. reflexivity.
Defined.

(** X10: the average of a sector overview, before and after rounding, lies
    between 0 and 95. *)
Theorem sector_average_range sqrtQ supplier o :
  get_banking_sector_overview sqrtQ supplier = Sector o ->
  exists mean a,
    sector_mean sqrtQ supplier = Fin mean /\ 0 <= mean <= 95 /\
    average_sector_score o = Fin a /\ 0 <= a <= 95.
Proof.
  intros Ho. destruct (overview_shape sqrtQ supplier o Ho) as [Hpos ->].
  destruct (sector_loop_total sqrtQ supplier) as (_ & t & Ht & B).
  destruct (sector_mean_finite sqrtQ supplier Hpos) as (t' & Ht' & Hm).
  rewrite Ht in Ht'. injection Ht' as <-.
  set (n := inject_Z (bank_count (sector_loop sqrtQ supplier))) in *.
  assert (Hn : 0 < n)
    by (subst n; change 0 with (inject_Z 0); rewrite <- Zlt_Qlt; exact Hpos).
  assert (Hmean : 0 <= t / n <= 95).
  { split.
    - apply Qle_shift_div_l; [exact Hn | lra].
    - apply Qle_shift_div_r; [exact Hn | lra]. }
  exists (t / n), (round2 (t / n)). split; [exact Hm|]. split; [exact Hmean|].
  cbn [average_sector_score]. rewrite Hm. split; [reflexivity|]. split.
  - pose proof (round2_ge_cents (t / n) 0) as H0.
    assert (E0 : inject_Z 0 / 100 == 0) by reflexivity.
    rewrite E0 in H0. apply H0. lra.
  - pose proof (round2_le_cents (t / n) 9500) as H1.
    assert (E1 : inject_Z 9500 / 100 == 95) by reflexivity.
    rewrite E1 in H1. apply H1. lra.
Qed.

Lemma sector_average_range_witness :
  exists o a, get_banking_sector_overview sqrt_approx all_45 = Sector o /\
              average_sector_score o = Fin a /\ 0 <= a <= 95.
Proof.
  assert (exists o, get_banking_sector_overview sqrt_approx all_45 = Sector o) as [o Ho]
    by (eexists; vm_compute; reflexivity).
  destruct (sector_average_range sqrt_approx all_45 o Ho) as (mean & a & _ & _ & Ha & B).
  exists o, a. split; [exact Ho|]. split; [exact Ha | exact B].
Defined.

(** X11: a High warning is only emitted when the sentiment is Bearish, and the
    reported average is then at most 49.99. *)
Theorem high_warning_means_bearish sqrtQ supplier o w :
  get_banking_sector_overview sqrtQ supplier = Sector o ->
  get_early_warning_indicators sqrtQ supplier = Warnings w ->
  has_level "High" w ->
  sector_sentiment o = "Bearish" /\ sentiment_color o = "red" /\
  exists a, sector_health_score w = Fin a /\ a <= 49.99.
Proof.
  intros Ho Hw Hhigh.
  destruct (warning_rules_general sqrtQ supplier o Ho)
    as (w' & mean & Hw' & Hm & Ha & Hs & _ & Hh & _).
  rewrite Hw in Hw'. injection Hw' as <-.
  apply Hh in Hhigh.
  assert (E : 50 == inject_Z 5000 / 100) by reflexivity.
  rewrite E in Hhigh. apply round2_lt_cents in Hhigh as [Hr Hmean].
  destruct (overview_shape sqrtQ supplier o Ho) as [_ Hshape].
  assert (Hsent : sentiment_of (sector_mean sqrtQ supplier) = ("Bearish", "red")).
  { rewrite Hm. unfold sentiment_of. cbn [fge fle].
    assert (Hlt : mean < 50).
    { assert (inject_Z 5000 / 100 == 50) as E' by reflexivity. rewrite E' in Hmean. lra. }
    assert (Qle_bool 70 mean = false) as -> by (apply Qle_bool_false; lra).
    assert (Qle_bool 50 mean = false) as -> by (apply Qle_bool_false; lra).
    reflexivity. }
  rewrite Hshape. cbn [sector_sentiment sentiment_color]. rewrite Hsent.
  split; [reflexivity|]. split; [reflexivity|].
  exists (round2 mean). rewrite Hs, Ha. split; [reflexivity|].
  assert (inject_Z (5000 - 1) / 100 == 49.99) as E' by reflexivity.
  rewrite E' in Hr. exact Hr.
Qed.

Lemma high_warning_means_bearish_witness :
  exists o, get_banking_sector_overview sqrt_approx all_45 = Sector o /\
            sector_sentiment o = "Bearish".
Proof.
  assert (exists o, get_banking_sector_overview sqrt_approx all_45 = Sector o) as [o Ho]
    by (eexists; vm_compute; reflexivity).
  assert (exists w, get_early_warning_indicators sqrt_approx all_45 = Warnings w /\
                    has_level "High" w) as (w & Hw & Hh).
  { eexists. split; [vm_compute; reflexivity|].
    eexists. split; [left; reflexivity | reflexivity]. }
  exists o. split; [exact Ho|].
  apply (high_warning_means_bearish sqrt_approx all_45 o w Ho Hw Hh).
Defined.

End BankMoreFacts.

(** ** Further properties of the budget planner *)

Module BudgetMoreFacts.
Import AIBudgetPlanner BudgetSamples BudgetFacts BudgetTerms.









(** *** Recommendations *)

Lemma py_div_zero (a b : Q) : b == 0 -> py_div a b = Raise ZeroDivisionError.
Proof.
  intros H. unfold py_div.
  assert (Qeq_bool b 0 = true) as -> by (apply Qeq_bool_iff; exact H). reflexivity.
Qed.



(** X15: called with an income of 0 the recommendations raise
    [ZeroDivisionError]; [create_personalized_budget] rejects such a request
    before it gets there. *)
Theorem recommendations_zero_income (income : Q) (expenses : gmap string Q)
    (goals : list string) (risk : string) (age : Z) :
  income == 0 ->
  _generate_recommendations income expenses goals risk age = Raise ZeroDivisionError /\
  forall ud, default 0 (monthly_income ud) == 0 ->
    create_personalized_budget ud = BudgetError "Invalid monthly income".
Proof.
  intros H. split.
  - unfold _generate_recommendations. rewrite (py_div_zero _ _ H). reflexivity.
  - intros ud Hud. unfold create_personalized_budget, build_budget. cbv zeta.
    assert (Qle_bool (default 0 (monthly_income ud)) 0 = true) as ->
      by (apply Qle_bool_iff; lra).
    reflexivity.
Qed.

Lemma recommendations_zero_income_witness :
  _generate_recommendations 0 ∅ [] "moderate" 30 = Raise ZeroDivisionError.
Proof.
  apply (recommendations_zero_income 0 ∅ [] "moderate" 30). reflexivity.
Defined.

(** *** The budget plan *)















Lemma savings_rate_total income expenses : exists r, savings_rate_of income expenses = Val r.
Proof.
  unfold savings_rate_of. destruct (Qlt_bool 0 income) eqn:E.
  - apply Qlt_bool_iff in E. rewrite (py_div_pos _ _ E). eexists; reflexivity.
  - eexists; reflexivity.
Qed.

Lemma debt_ratio_total income expenses : exists r, debt_ratio_of income expenses = Val r.
Proof.
  unfold debt_ratio_of. destruct (Qlt_bool 0 income) eqn:E.
  - apply Qlt_bool_iff in E. rewrite (py_div_pos _ _ E). eexists; reflexivity.
  - eexists; reflexivity.
Qed.

Lemma emergency_months_total income expenses :
  exists r, emergency_months_of income expenses = Val r.
Proof.
  unfold emergency_months_of. destruct (Qlt_bool 0 income) eqn:E.
  - apply Qlt_bool_iff in E. rewrite (py_div_pos _ _ E). eexists; reflexivity.
  - eexists; reflexivity.
Qed.


(** X19: status, colour and recommendation of the financial health score
    always belong to the same band. *)
Theorem health_status_matches_recommendation (ud : user_data) :
  exists h, _calculate_financial_health_score ud = Val h /\
  ((status h = "Excellent" /\ status_color h = "green" /\
    recommendation h
      = "Excellent financial health! Focus on wealth building and advanced strategies.") \/
   (status h = "Good" /\ status_color h = "blue" /\
    recommendation h
      = "Good financial health. Continue building emergency fund and increasing savings.") \/
   (status h = "Fair" /\ status_color h = "orange" /\
    recommendation h
      = "Fair financial health. Prioritize debt reduction and emergency fund building.") \/
   (status h = "Poor" /\ status_color h = "red" /\
    recommendation h
      = "Poor financial health. Focus on basic budgeting and debt management first.")).
Proof.
  unfold _calculate_financial_health_score.
  destruct (savings_rate_total (default 0 (monthly_income ud))
              (default ∅ (current_expenses ud))) as [r1 ->].
  destruct (debt_ratio_total (default 0 (monthly_income ud))
              (default ∅ (current_expenses ud))) as [r2 ->].
  destruct (emergency_months_total (default 0 (monthly_income ud))
              (default ∅ (current_expenses ud))) as [r3 ->].
  cbn [mbind exc_bind mret exc_ret]. cbv zeta.
  eexists. split; [reflexivity|].
  cbn [status status_color recommendation].
  unfold overall_status, _get_health_recommendation.
  set (sc := acc_score _).
  destruct (80 <=? sc)%Z; [left; repeat split|].
  destruct (60 <=? sc)%Z; [right; left; repeat split|].
  destruct (40 <=? sc)%Z; [right; right; left; repeat split|].
  right; right; right; repeat split.
Qed.

End BudgetMoreFacts.

(** ** The chatbot *)

Module ChatFacts.
Import ChatbotService ChatTerms.

Lemma lower_char_not_upper (c : Ascii.ascii) : is_upper (lower_char c) = false.
Proof. destruct c as [[] [] [] [] [] [] [] []]; reflexivity. Qed.

Lemma lower_has_no_upper (s : string) : has_upper (lower s) = false.
Proof.
  induction s as [|c s IH]; [reflexivity|].
  cbn [lower has_upper]. rewrite lower_char_not_upper, IH. reflexivity.
Qed.

Lemma prefix_upper (k h : string) :
  String.prefix k h = true -> has_upper k = true -> has_upper h = true.
Proof.
  revert h. induction k as [|a k IH]; intros h Hp Hu; [discriminate|].
  destruct h as [|b h]; [discriminate|]. cbn [String.prefix] in Hp.
  destruct (Ascii.ascii_dec a b) as [<-|]; [|discriminate].
  cbn [has_upper] in *. destruct (is_upper a); [reflexivity|].
  cbn in *. apply IH; assumption.
Qed.

Lemma contains_upper (k h : string) :
  contains k h = true -> has_upper k = true -> has_upper h = true.
Proof.
  intros Hc Hu. induction h as [|b h IH].
  - cbn [contains] in Hc. rewrite orb_false_r in Hc. exact (prefix_upper _ _ Hc Hu).
  - cbn [contains] in Hc. apply orb_true_iff in Hc as [Hp|Hc].
    + exact (prefix_upper _ _ Hp Hu).
    + cbn [has_upper]. rewrite (IH Hc). apply orb_true_r.
Qed.

Lemma upper_keyword_never_found (k q : string) :
  has_upper k = true -> contains k (lower q) = false.
Proof.
  intros Hu. destruct (contains k (lower q)) eqn:E; [|reflexivity].
  pose proof (contains_upper _ _ E Hu) as H. rewrite lower_has_no_upper in H. discriminate.
Qed.

Lemma existsb_filter {A} (f : A -> bool) (P : A -> Prop) `{forall x, Decision (P x)}
    (l : list A) :
  (forall x, ~ P x -> f x = false) -> existsb f l = existsb f (filter P l).
Proof.
  intros Hf. induction l as [|x l IH]; [reflexivity|].
  cbn [existsb]. rewrite filter_cons. destruct (decide (P x)) as [Hp|Hn].
  - cbn [existsb]. rewrite IH. reflexivity.
  - rewrite (Hf x Hn), IH. reflexivity.
Qed.

(** X20: the question is lowered but the keywords are not, so the 22 keywords
    written with a capital letter never match; "ETF" alone is not
    finance-related. *)
Theorem capital_keywords_never_match (question : string) :
  (forall keyword, has_upper keyword = true ->
     contains keyword (lower question) = false) /\
  is_finance_related question
    = existsb (fun keyword => contains keyword (lower question)) lowercase_keywords /\
  length FINANCE_KEY_WORDS = 188%nat /\
  length lowercase_keywords = 166%nat /\
  existsb (String.eqb "ETF") FINANCE_KEY_WORDS = true /\
  is_finance_related "ETF" = false.
Proof.
  split; [intros k Hk; apply upper_keyword_never_found; exact Hk|].
  split.
  - unfold is_finance_related, lowercase_keywords. cbv zeta.
    apply existsb_filter. intros k Hk.
    apply upper_keyword_never_found. destruct (has_upper k); [reflexivity | contradiction].
  - split; [reflexivity|]. split; [vm_compute; reflexivity|].
    split; vm_compute; reflexivity.
Qed.

Lemma capital_keywords_never_match_witness :
  contains "ETF" (lower "What is an ETF?") = false.
Proof.
  apply (proj1 (capital_keywords_never_match "What is an ETF?") "ETF"). reflexivity.
Defined.

(** *** The formatted reply *)

Lemma has_star_app (a b : string) : has_star (a +:+ b) = has_star a || has_star b.
Proof.
  induction a as [|c a IH]; [reflexivity|].
  simpl. rewrite IH. apply orb_assoc.
Qed.

Lemma prefix_star_head (old' : string) (c : Ascii.ascii) (rest : string) :
  String.prefix (String star old') (String c rest) = true -> Ascii.eqb c star = true.
Proof.
  cbn [String.prefix]. destruct (Ascii.ascii_dec star c) as [<-|]; [|discriminate].
  intros _. reflexivity.
Qed.

Lemma replace_star_none (new s : string) :
  has_star new = false -> has_star (replace_from "*" new 0 s) = false.
Proof.
  intros Hn. induction s as [|c s IH]; [reflexivity|].
  cbn [replace_from]. destruct (String.prefix "*" (String c s)) eqn:E.
  - cbn [String.length Nat.sub]. rewrite has_star_app, Hn, IH. reflexivity.
  - cbn [has_star]. rewrite IH, orb_false_r.
    destruct (Ascii.eqb c star) eqn:Ec; [|reflexivity].
    apply Ascii.eqb_eq in Ec. subst c. cbn [String.prefix] in E. revert E.
    destruct (Ascii.ascii_dec _ star) as [_|Hd]; [destruct s; intros E; discriminate E|].
    exfalso. apply Hd. reflexivity.
Qed.

Lemma replace_star_free (old' new s : string) :
  has_star s = false -> replace_from (String star old') new 0 s = s.
Proof.
  induction s as [|c s IH]; intros Hs; [reflexivity|].
  cbn [has_star] in Hs. apply orb_false_iff in Hs as [Hc Hs].
  cbn [replace_from].
  destruct (String.prefix (String star old') (String c s)) eqn:E.
  - apply prefix_star_head in E. congruence.
  - rewrite IH by exact Hs. reflexivity.
Qed.

(** X21: no reply of the chatbot contains an asterisk, whatever the provider
    answers. *)
Theorem reply_has_no_asterisk (generate_content : string -> option string)
    (question : string) :
  has_star (get_response generate_content question) = false.
Proof.
  unfold get_response.
  destruct (is_finance_related question); cbn [negb]; [|reflexivity].
  destruct (generate_content (finance_prompt question)) as [text|]; [|reflexivity].
  unfold str_replace. apply replace_star_none. reflexivity.
Qed.

(** X22: for a finance-related question a provider text without asterisks is
    returned unchanged, and a provider failure gives the apology. *)
Theorem plain_reply_unchanged (generate_content : string -> option string)
    (question : string) :
  is_finance_related question = true ->
  (forall text, generate_content (finance_prompt question) = Some text ->
     has_star text = false -> get_response generate_content question = text) /\
  (generate_content (finance_prompt question) = None ->
     get_response generate_content question = apology_reply).
Proof.
  intros Hf. unfold get_response. rewrite Hf. cbn [negb]. split.
  - intros text -> Hs. unfold str_replace.
    change "**"%string with (String star "*"). rewrite (replace_star_free "*" "" text Hs).
    change "*"%string with (String star ""). apply replace_star_free. exact Hs.
  - intros ->. reflexivity.
Qed.

Lemma plain_reply_unchanged_witness :
  get_response (fixed_reply "Spend less than you earn.") "How do I budget?"
    = "Spend less than you earn.".
Proof.
  apply (proj1 (plain_reply_unchanged (fixed_reply "Spend less than you earn.")
                  "How do I budget?" eq_refl)); reflexivity.
Defined.

(** *** Keywords inside longer text *)

Lemma lower_app (a b : string) : lower (a +:+ b) = lower a +:+ lower b.
Proof.
  induction a as [|c a IH]; [reflexivity|].
  simpl. rewrite IH. reflexivity.
Qed.

Lemma prefix_app (k h b : string) :
  String.prefix k h = true -> String.prefix k (h +:+ b) = true.
Proof.
  revert k. induction h as [|c h IH]; intros k Hp.
  - destruct k; [|discriminate]. destruct b; reflexivity.
  - destruct k as [|a k]; [reflexivity|].
    simpl in *. destruct (Ascii.ascii_dec a c); [|discriminate]. apply IH. exact Hp.
Qed.

Lemma prefix_refl (k : string) : String.prefix k k = true.
Proof.
  induction k as [|a k IH]; [reflexivity|].
  cbn [String.prefix]. destruct (Ascii.ascii_dec a a); [exact IH | contradiction].
Qed.

Lemma contains_head (k h : string) : String.prefix k h = true -> contains k h = true.
Proof. intros H. destruct h; cbn [contains]; rewrite H; reflexivity. Qed.

Lemma contains_skip (k a h : string) : contains k h = true -> contains k (a +:+ h) = true.
Proof.
  intros H. induction a as [|c a IH]; [exact H|].
  simpl. rewrite IH. apply orb_true_r.
Qed.

Lemma contains_inside (k a b : string) : contains k (a +:+ k +:+ b) = true.
Proof.
  apply contains_skip. apply contains_head. apply prefix_app. apply prefix_refl.
Qed.

(** X23: a keyword occurring anywhere in the question, in any letter case and
    inside a longer word, makes the question finance-related. *)
Theorem keyword_anywhere_passes (keyword before word after : string) :
  In keyword FINANCE_KEY_WORDS ->
  lower word = keyword ->
  is_finance_related (before +:+ word +:+ after) = true /\
  forall generate_content,
    generate_content (finance_prompt (before +:+ word +:+ after)) = None ->
    get_response generate_content (before +:+ word +:+ after) = apology_reply.
Proof.
  intros Hin Hw.
  assert (Hf : is_finance_related (before +:+ word +:+ after) = true).
  { unfold is_finance_related. cbv zeta. apply existsb_exists.
    exists keyword. split; [exact Hin|].
    rewrite !lower_app, Hw. apply contains_inside. }
  split; [exact Hf|].
  intros generate_content Hg. unfold get_response. rewrite Hf, Hg. reflexivity.
Qed.

Lemma keyword_anywhere_passes_witness :
  is_finance_related "Is my town unBANKed?" = true.
Proof.
  apply (keyword_anywhere_passes "bank" "Is my town un" "BANK" "ed?").
  - vm_compute. auto 200.
  - reflexivity.
Defined.

End ChatFacts.

(** ** The stock service *)

Module StockFacts.
Import BankHealthAnalyzer StockService BankTerms BankMoreFacts StockTerms.

Lemma distinct_NoDup (l : list string) : distinct l = true -> List.NoDup l.
Proof.
  induction l as [|x l IH]; intros H; [apply List.NoDup_nil|].
  cbn [distinct] in H. apply andb_true_iff in H as [Hx Hl].
  apply List.NoDup_cons; [|apply IH; exact Hl].
  intros Hin. apply negb_true_iff in Hx.
  assert (existsb (String.eqb x) l = true) as E
    by (apply existsb_exists; exists x; split; [exact Hin | apply String.eqb_refl]).
  congruence.
Qed.

Lemma listed_stocks_distinct : List.NoDup listed_stocks.
Proof. apply distinct_NoDup. vm_compute. reflexivity. Qed.

Section Lookup.

Variable supplier : string -> option quote.

Lemma stock_step_data acc stock :
  dict_get acc stock = None ->
  stock_step supplier acc stock
    = acc ++ match quoted supplier stock with
             | Some e => [(stock, e)]
             | None => []
             end.
Proof.
  intros Hfresh. unfold stock_step, quoted.
  destruct (supplier stock) as [q|]; [|rewrite app_nil_r; reflexivity].
  destruct (history q) as [|b h]; [rewrite app_nil_r; reflexivity|].
  destruct (stock_entry_of stock q) as [e|]; [|rewrite app_nil_r; reflexivity].
  apply dict_set_fresh_app. exact Hfresh.
Qed.

Lemma stock_fold_data (stocks : list string) acc :
  List.NoDup stocks ->
  (forall k, In k stocks -> dict_get acc k = None) ->
  fold_left (stock_step supplier) stocks acc
    = acc ++ omap (fun s => pair s <$> quoted supplier s) stocks.
Proof.
  revert acc. induction stocks as [|s stocks IH]; intros acc Hnd Hfresh.
  - cbn. rewrite app_nil_r. reflexivity.
  - cbn [fold_left]. apply List.NoDup_cons_iff in Hnd as [Hs Hnd].
    pose proof (stock_step_data acc s (Hfresh s (or_introl eq_refl))) as Hstep.
    rewrite IH; [|exact Hnd|].
    + rewrite Hstep. cbn [omap list_omap].
      destruct (quoted supplier s) as [e|]; cbn.
      * rewrite <- app_assoc. reflexivity.
      * rewrite app_nil_r. reflexivity.
    + intros k Hk. rewrite Hstep.
      assert (Hks : s <> k) by (intros ->; contradiction).
      destruct (quoted supplier s) as [e|].
      * rewrite dict_get_app_other by exact Hks. apply Hfresh. right. exact Hk.
      * rewrite app_nil_r. apply Hfresh. right. exact Hk.
Qed.

Lemma dict_get_omap (f : string -> option stock_entry) (l : list string) (k : string) :
  dict_get (omap (fun s => pair s <$> f s) l) k = if existsb (String.eqb k) l then f k else None.
Proof.
  induction l as [|x l IH]; [reflexivity|].
  cbn [omap list_omap existsb]. destruct (String.eqb_spec k x) as [->|Hne].
  - cbn [orb]. destruct (f x) as [e|] eqn:E; cbn.
    + rewrite String.eqb_refl. reflexivity.
    + rewrite IH. destruct (existsb (String.eqb x) l); reflexivity.
  - cbn [orb]. destruct (f x) as [e|]; cbn.
    + destruct (String.eqb_spec x k) as [->|_]; [contradiction | exact IH].
    + exact IH.
Qed.

Lemma stock_data_lookup (stock : string) :
  dict_get (get_stock_data supplier) stock
    = if existsb (String.eqb stock) listed_stocks then quoted supplier stock else None.
Proof.
  unfold get_stock_data. cbv zeta. fold listed_stocks.
  rewrite stock_fold_data; [|exact listed_stocks_distinct | reflexivity].
  cbn [app]. apply dict_get_omap.
Qed.

Lemma stock_entry_of_val stock q e :
  stock_entry_of stock q = Val e ->
  exists latest previous short_name,
    iloc_neg (map Close (history q)) 1 = Val latest /\
    iloc_neg (map Close (history q)) 2 = Val previous /\
    shortName q = Val short_name /\
    e = {| name := default stock short_name;
           price := Fin (round2 latest);
           change := Fin (round2 (latest + - previous));
           change_percent :=
             fround2 (fmul (fdiv (Fin (latest + - previous)) (Fin previous)) (Fin 100)) |}.
Proof.
  unfold stock_entry_of. cbv zeta.
  destruct (iloc_neg (map Close (history q)) 1) as [l|]; [|discriminate].
  destruct (iloc_neg (map Close (history q)) 2) as [p|]; [|discriminate].
  destruct (shortName q) as [n|]; [|discriminate].
  cbn [mbind exc_bind mret exc_ret]. intros [= <-].
  exists l, p, n. repeat split.
Qed.

End Lookup.

(** X24: a symbol has an entry in the stock data exactly when it is a listed
    symbol whose supplier gave at least two sessions and whose entry could be
    built. *)
Theorem stock_listed_iff supplier (stock : string) (e : stock_entry) :
  dict_get (get_stock_data supplier) stock = Some e <->
  In stock listed_stocks /\
  exists q, supplier stock = Some q /\ (2 <= length (history q))%nat /\
            stock_entry_of stock q = Val e.
Proof.
  rewrite stock_data_lookup. split.
  - destruct (existsb (String.eqb stock) listed_stocks) eqn:E; [|discriminate].
    apply existsb_exists in E as (x & Hin & Hx). apply String.eqb_eq in Hx. subst x.
    intros Hq. split; [exact Hin|]. unfold quoted in Hq.
    destruct (supplier stock) as [q|]; [|discriminate].
    exists q. split; [reflexivity|].
    destruct (history q) as [|b h] eqn:Eh; [discriminate|].
    destruct (stock_entry_of stock q) as [e'|] eqn:Ee; [|discriminate].
    injection Hq as <-. split; [|reflexivity].
    destruct (stock_entry_of_val _ _ _ Ee) as (l & p & n & _ & Hp & _).
    destruct (Nat.lt_ge_cases (length (history q)) 2) as [Hlt|Hge].
    + rewrite (iloc_neg_second_short (map Close (history q))) in Hp
        by (rewrite length_map; exact Hlt).
      discriminate.
    + rewrite Eh in Hge. exact Hge.
  - intros (Hin & q & Hq & Hlen & He).
    assert (existsb (String.eqb stock) listed_stocks = true) as ->
      by (apply existsb_exists; exists stock; split; [exact Hin | apply String.eqb_refl]).
    unfold quoted. rewrite Hq.
    destruct (history q) as [|b h]; [cbn in Hlen; lia|]. rewrite He. reflexivity.
Qed.

(** X25: a zero previous close does not drop a stock: its entry has an
    infinite or NaN [change_percent], and its name falls back to the symbol
    when there is no short name. *)
Theorem stock_zero_previous_close supplier (stock : string) (q : quote)
    (latest previous : Q) (short_name : option string) :
  In stock listed_stocks ->
  supplier stock = Some q ->
  iloc_neg (map Close (history q)) 1 = Val latest ->
  iloc_neg (map Close (history q)) 2 = Val previous ->
  shortName q = Val short_name ->
  previous == 0 ->
  exists e, dict_get (get_stock_data supplier) stock = Some e /\
    name e = default stock short_name /\
    price e = Fin (round2 latest) /\
    change_percent e = inf_of_sign latest.
Proof.
  intros Hin Hq Hl Hp Hn H0.
  rewrite stock_data_lookup.
  assert (existsb (String.eqb stock) listed_stocks = true) as ->
    by (apply existsb_exists; exists stock; split; [exact Hin | apply String.eqb_refl]).
  unfold quoted. rewrite Hq.
  destruct (history q) as [|b h] eqn:Eh; [discriminate Hl|].
  unfold stock_entry_of. cbv zeta. rewrite Eh, Hl, Hp, Hn.
  cbn [mbind exc_bind mret exc_ret].
  eexists. split; [reflexivity|].
  cbn [name price change_percent fround2 fsub fneg fadd fdiv].
  split; [reflexivity|]. split; [reflexivity|].
  assert (Qeq_bool previous 0 = true) as -> by (apply Qeq_bool_iff; exact H0).
  rewrite BankFacts.inf_times_100. unfold inf_of_sign.
  assert (E : latest + - previous == latest) by lra.
  rewrite (Qcompare_comp _ _ E 0 0 (Qeq_refl 0)). reflexivity.
Qed.

Lemma stock_zero_previous_close_witness :
  exists e, dict_get (get_stock_data (apple_only 0 150)) "AAPL" = Some e /\
            name e = "AAPL" /\ change_percent e = PInf.
Proof.
  destruct (stock_zero_previous_close (apple_only 0 150) "AAPL"
              {| history := [ {| Open := 0; High := 0; Low := 0; Close := 0; Volume := 10 |};
                              {| Open := 150; High := 150; Low := 150; Close := 150;
                                 Volume := 10 |} ];
                 shortName := Val None |} 150 0 None)
    as (e & He & Hn & _ & Hc).
  - left. reflexivity.
  - reflexivity.
  - reflexivity.
  - reflexivity.
  - reflexivity.
  - reflexivity.
  - exists e. split; [exact He|]. split; [exact Hn | exact Hc].
Defined.

Lemma stock_listed_iff_witness :
  exists e, dict_get (get_stock_data (apple_only 148 150)) "AAPL" = Some e.
Proof.
  eexists. apply (proj2 (stock_listed_iff (apple_only 148 150) "AAPL" _)).
  split; [left; reflexivity|].
  eexists. split; [reflexivity|]. split; [cbn; lia | reflexivity].
Defined.

End StockFacts.

(** ** The routes *)

Module RouteFacts.

(** X26: the savings-tips route answers every profile with the error body and
    status 500. *)
Theorem tips_route_always_fails (profile : string) :
  Routes.get_savings_tips profile = (Routes.TipsErrorJson "Failed to fetch tips", 500%Z).
Proof.
  unfold Routes.get_savings_tips. rewrite BudgetFacts.get_savings_tips_raises. reflexivity.
Qed.

End RouteFacts.
